(** * IGDividendPDFDataExtract: dividend records from PDF text to a workbook

    A shallow embedding of [IGDividendPDFDataExtract.py].  The script reads
    the third page of every PDF of a directory, pulls four fields out of the
    page text with regular expressions and appends one row per document to
    the sheet "Dividends" of a workbook.

    Python values are dynamically typed; the few kinds the script handles are
    the constructors of [value].  A Python [str] is a sequence of Unicode
    code points, here a list of numbers.  The classes [\d], [\s] and [\w] of
    the [re] module consult the Unicode character database for code points
    above 127; that table is not part of the script and is a parameter
    ([ucd]) of everything that follows.

    The file system, PyPDF2 and openpyxl are not part of the script
    either.  They are described as far as the script meets them: what a
    directory lists, what a PDF gives or raises when it is read, and of
    openpyxl the cells that refuse their value, the name of a file that
    [load_workbook] refuses, and what is read back of a number that was
    written. *)

From Stdlib Require Import String Ascii.
From Stdlib Require Import List Bool Arith NArith ZArith Lia Permutation.
From Stdlib Require Import SpecFloat.
Import ListNotations.

Set Implicit Arguments.

(** ** Text *)

Definition codepoint := N.
Definition str := list codepoint.

(** A literal of the script, as code points. *)
Definition lit (s : string) : str := map N_of_ascii (list_ascii_of_string s).

Definition str_eq_dec : forall a b : str, {a = b} + {a <> b} :=
  list_eq_dec N.eq_dec.

Definition str_eqb (a b : str) : bool := if str_eq_dec a b then true else false.

(** [s[a:b]] *)
Definition slice (s : str) (a b : nat) : str := firstn (b - a) (skipn a s).

(** [s.endswith(suf)] *)
Definition endswith (s suf : str) : bool :=
  (length suf <=? length s) &&
  str_eqb (skipn (length s - length suf) s) suf.

(** ** Python values *)

Inductive value :=
| VNone
| VBool (b : bool)
| VInt (z : Z)
| VFloat (f : spec_float)
| VStr (s : str).

Inductive exn :=
| OSError              (* open, os.listdir *)
| PdfReadError         (* PyPDF2 cannot parse the file or the page *)
| InvalidFileException (* load_workbook refuses the name of the file *)
| IllegalCharacterError (* a cell refuses a control character *)
| KeyError             (* workbook[title] without such a sheet *)
| ValueError
| TypeError
| OverflowError
| IndexError.

Inductive outcome (A : Type) :=
| Ok (a : A)
| Raise (e : exn).
Arguments Ok {A} a.
Arguments Raise {A} e.

(** ** The Unicode character database *)

Record ucd := {
  uni_decimal : codepoint -> option N;  (* value of a decimal digit (Nd) *)
  uni_space : codepoint -> bool;        (* str.isspace *)
  uni_alnum : codepoint -> bool         (* str.isalnum *)
}.

(** A database that classifies nothing above 127. *)
Definition ascii_only : ucd :=
  {| uni_decimal := fun _ => None;
     uni_space := fun _ => false;
     uni_alnum := fun _ => false |}.

Definition in_range (lo hi c : N) : bool := (lo <=? c)%N && (c <=? hi)%N.
Definition is_ascii (c : codepoint) : bool := (c <? 128)%N.

(** [[A-Za-z]] *)
Definition cls_alpha (c : codepoint) : bool :=
  in_range 65 90 c || in_range 97 122 c.

Section Classes.
Variable U : ucd.

Definition decimal_value (c : codepoint) : option N :=
  if is_ascii c then
    if in_range 48 57 c then Some (c - 48)%N else None
  else uni_decimal U c.

(** [\d] *)
Definition cls_digit (c : codepoint) : bool :=
  match decimal_value c with Some _ => true | None => false end.

(** [\s] *)
Definition cls_space (c : codepoint) : bool :=
  if is_ascii c then
    in_range 9 13 c || in_range 28 31 c || (c =? 32)%N
  else uni_space U c.

(** [\w] *)
Definition cls_word (c : codepoint) : bool :=
  if is_ascii c then
    cls_alpha c || in_range 48 57 c || (c =? 95)%N
  else uni_alnum U c.

(** [[A-Za-z\s&-]] *)
Definition cls_name (c : codepoint) : bool :=
  cls_alpha c || cls_space c || (c =? 38)%N || (c =? 45)%N.
End Classes.

(** ** Regular expressions

    The constructs the four patterns of the script use.  Repetition is
    applied to single-character classes only. *)

Inductive regex :=
| Lit (s : str)                          (* literal text *)
| Cls (p : codepoint -> bool)            (* one character of a class *)
| Rep (n : nat) (p : codepoint -> bool)  (* class{n} *)
| Plus (p : codepoint -> bool)           (* class+, greedy *)
| Bound                                  (* \b *)
| Seq (r1 r2 : regex)
| Alt (r1 r2 : regex)                    (* r1|r2, r1 tried first *)
| Group (g : nat) (r : regex).           (* capturing group number g *)

(** Length of the longest prefix of [s] inside the class [p]. *)
Fixpoint span (p : codepoint -> bool) (s : str) : nat :=
  match s with
  | c :: s' => if p c then S (span p s') else 0
  | [] => 0
  end.

(** [n, n-1, ..., 1] *)
Fixpoint down (n : nat) : list nat :=
  match n with
  | 0 => []
  | S m => S m :: down m
  end.

(** Is [s] a prefix of [t]? *)
Fixpoint prefixb (s t : str) : bool :=
  match s, t with
  | [], _ => true
  | a :: s', b :: t' => (a =? b)%N && prefixb s' t'
  | _ :: _, [] => false
  end.

(** A matcher state: the current position and the spans of the groups
    closed so far, most recent first. *)
Definition mstate := (nat * list (nat * (nat * nat)))%type.

Section Matcher.
Variable U : ucd.
Variable text : str.

Definition word_at (i : nat) : bool :=
  match nth_error text i with
  | Some c => cls_word U c
  | None => false
  end.

(** [\b]: exactly one of the characters before and after [i] is a word
    character; the ends of the text count as non-word. *)
Definition at_boundary (i : nat) : bool :=
  xorb (match i with 0 => false | S j => word_at j end) (word_at i).

(** All the ways [r] can match from a state, in the order in which the
    backtracking matcher of [re] tries them. *)
Fixpoint matches (r : regex) (st : mstate) : list mstate :=
  match r with
  | Lit s =>
      if prefixb s (skipn (fst st) text)
      then [(fst st + length s, snd st)] else []
  | Cls p =>
      match nth_error text (fst st) with
      | Some c => if p c then [(S (fst st), snd st)] else []
      | None => []
      end
  | Rep n p =>
      if n <=? span p (skipn (fst st) text)
      then [(fst st + n, snd st)] else []
  | Plus p =>
      map (fun k => (fst st + k, snd st))
          (down (span p (skipn (fst st) text)))
  | Bound => if at_boundary (fst st) then [st] else []
  | Seq r1 r2 => flat_map (matches r2) (matches r1 st)
  | Alt r1 r2 => matches r1 st ++ matches r2 st
  | Group g r' =>
      map (fun st' => (fst st', (g, (fst st, fst st')) :: snd st'))
          (matches r' st)
  end.

(** A match object. *)
Record match_obj := {
  m_start : nat;
  m_end : nat;
  m_groups : list (nat * (nat * nat))
}.

Fixpoint lookup_group (g : nat) (gs : list (nat * (nat * nat)))
  : option (nat * nat) :=
  match gs with
  | [] => None
  | (h, sp) :: gs' => if h =? g then Some sp else lookup_group g gs'
  end.

(** [m.group(g)] *)
Definition group (m : match_obj) (g : nat) : value :=
  match g with
  | 0 => VStr (slice text (m_start m) (m_end m))
  | _ =>
      match lookup_group g (m_groups m) with
      | Some (a, b) => VStr (slice text a b)
      | None => VNone
      end
  end.

(** The first way [r] matches at position [i], if any. *)
Definition match_at (r : regex) (i : nat) : option match_obj :=
  match matches r (i, []) with
  | st :: _ => Some {| m_start := i; m_end := fst st; m_groups := snd st |}
  | [] => None
  end.

Fixpoint search_from (r : regex) (n i : nat) : option match_obj :=
  match n with
  | 0 => None
  | S n' =>
      match match_at r i with
      | Some m => Some m
      | None => search_from r n' (S i)
      end
  end.

(** [re.search(r, text)]: the start positions 0, 1, ..., len(text) are
    tried in turn. *)
Definition re_search (r : regex) : option match_obj :=
  search_from r (S (length text)) 0.
End Matcher.

(** ** The four patterns of [extract_dividend_details] *)

Section Patterns.
Variable U : ucd.

(** [(\d{2}[A-Za-z]{3}\d{2})] *)
Definition date_re : regex :=
  Group 1 (Seq (Rep 2 (cls_digit U))
          (Seq (Rep 3 cls_alpha)
               (Rep 2 (cls_digit U)))).

(** [(Ltd|PLC|Inc|Corp|Co|Group)] *)
Definition suffix_re : regex :=
  Alt (Lit (lit "Ltd"))
 (Alt (Lit (lit "PLC"))
 (Alt (Lit (lit "Inc"))
 (Alt (Lit (lit "Corp"))
 (Alt (Lit (lit "Co"))
      (Lit (lit "Group")))))).

(** [(\b[A-Za-z\s&-]+(Ltd|PLC|Inc|Corp|Co|Group)\b)] *)
Definition name_re : regex :=
  Group 1 (Seq Bound
          (Seq (Plus (cls_name U))
          (Seq (Group 2 suffix_re)
               Bound))).

(** [\d+\.\d+] *)
Definition decimal_re : regex :=
  Seq (Plus (cls_digit U)) (Seq (Lit (lit ".")) (Plus (cls_digit U))).

(** [(\d+@\d+\.\d+)] *)
Definition dividend_re : regex :=
  Group 1 (Seq (Plus (cls_digit U)) (Seq (Lit (lit "@")) decimal_re)).

(** [Dividend\s(\d+\.\d+)] *)
Definition amount_re : regex :=
  Seq (Lit (lit "Dividend")) (Seq (Cls (cls_space U)) (Group 1 decimal_re)).
End Patterns.

(** ** [float]

    A Python float is an IEEE 754 binary64 number, here a [spec_float] of
    precision 53 and maximal exponent 1024.  [float(s)] rounds the decimal
    number that [s] spells to the nearest binary64 number, ties to even. *)

Definition prec : Z := 53.
Definition emax : Z := 1024.

(** The binary64 number nearest to [m / 10^k]. *)
Definition decimal_to_float (m : N) (k : nat) : spec_float :=
  match m with
  | N0 => S754_zero false
  | Npos p =>
      SFdiv prec emax (S754_finite false p 0)
                      (S754_finite false (Z.to_pos (10 ^ Z.of_nat k)) 0)
  end.

(** [s.partition('.')] when [s] has a dot. *)
Fixpoint split_dot (s : str) : option (str * str) :=
  match s with
  | [] => None
  | c :: s' =>
      if (c =? 46)%N then Some ([], s')
      else match split_dot s' with
           | Some (a, b) => Some (c :: a, b)
           | None => None
           end
  end.

Section Float.
Variable U : ucd.

(** The number a run of decimal digits spells, continuing from [acc]. *)
Fixpoint digits_value (ds : str) (acc : N) : option N :=
  match ds with
  | [] => Some acc
  | c :: ds' =>
      match decimal_value U c with
      | Some d => digits_value ds' (10 * acc + d)
      | None => None
      end
  end.

(** [float(s)] for a string.  Only the spelling [digits.digits] is
    interpreted.  [float] accepts further spellings (signs, exponents,
    surrounding blanks, underscores, [inf], [nan]); they are reported as
    [ValueError] here, and [extract_fields] below never passes one. *)
Definition float_of_str (s : str) : outcome spec_float :=
  match split_dot s with
  | Some (ip, fp) =>
      match ip, fp, digits_value (ip ++ fp) 0 with
      | _ :: _, _ :: _, Some m => Ok (decimal_to_float m (length fp))
      | _, _, _ => Raise ValueError
      end
  | None => Raise ValueError
  end.

(** [float(v)] *)
Definition py_float (v : value) : outcome value :=
  match v with
  | VStr s =>
      match float_of_str s with
      | Ok f => Ok (VFloat f)
      | Raise e => Raise e
      end
  | VFloat f => Ok (VFloat f)
  | VInt z =>
      match binary_normalize prec emax z 0 false with
      | S754_infinity _ => Raise OverflowError
      | f => Ok (VFloat f)
      end
  | VBool b => Ok (VFloat (binary_normalize prec emax (if b then 1 else 0) 0 false))
  | VNone => Raise TypeError
  end.
End Float.

(** ** Numbers in a workbook file

    openpyxl writes the number of a cell as ["%.16g" % value], the decimal
    number of 16 significant digits nearest to the float, and writes
    nothing for an infinity or a NaN.  Reading the file again, it takes
    the text for an [int] when it holds neither a point nor an exponent and
    for a [float] otherwise. *)

(** The number of decimal digits of [n], for [n] positive. *)
Fixpoint count_digits (fuel : nat) (n : Z) : Z :=
  match fuel with
  | 0 => 0
  | S k => if (n <? 10)%Z then 1 else (1 + count_digits k (n / 10))%Z
  end.

Definition ndigits (n : Z) : Z := count_digits (S (Z.to_nat (Z.log2 n))) n.

(** [num / den] to 16 significant digits: the digits [d], with
    [10^15 <= d < 10^16], and the exponent [x] of the first of them; the
    number written is [d * 10^(x - 15)].  Halves go to the even digit. *)
Definition sixteen_digits (num den : Z) : Z * Z :=
  let x0 := (ndigits num - ndigits den)%Z in
  let reaches :=
    if (0 <=? x0)%Z then (den * 10 ^ x0 <=? num)%Z
    else (den <=? num * 10 ^ (- x0))%Z in
  let x := if reaches then x0 else (x0 - 1)%Z in
  let n := if (x <=? 15)%Z then (num * 10 ^ (15 - x))%Z else num in
  let m := if (x <=? 15)%Z then den else (den * 10 ^ (x - 15))%Z in
  let q := (n / m)%Z in
  let r := (n mod m)%Z in
  let d :=
    if (2 * r <? m)%Z then q
    else if (m <? 2 * r)%Z then (q + 1)%Z
    else if Z.even q then q else (q + 1)%Z in
  if (d =? 10 ^ 16)%Z then (10 ^ 15, x + 1)%Z else (d, x).

(** A float cell, written and read again. *)
Definition reread_float (f : spec_float) : value :=
  match f with
  | S754_zero _ => VInt 0
  | S754_infinity _ | S754_nan => VNone
  | S754_finite s m e =>
      let num := if (0 <=? e)%Z then (Z.pos m * 2 ^ e)%Z else Z.pos m in
      let den := if (0 <=? e)%Z then 1%Z else (2 ^ (- e))%Z in
      let '(d, x) := sixteen_digits num den in
      if (0 <=? x)%Z && (x <=? 15)%Z && (d mod 10 ^ (15 - x) =? 0)%Z then
        let n := (d / 10 ^ (15 - x))%Z in
        VInt (if s then (- n)%Z else n)
      else
        let g :=
          if (15 <=? x)%Z then decimal_to_float (Z.to_N (d * 10 ^ (x - 15))) 0
          else decimal_to_float (Z.to_N d) (Z.to_nat (15 - x)) in
        VFloat (if s then SFopp g else g)
  end.

(** ** The world the script runs in *)

(** A row of a sheet: the values of its cells, left to right. *)
Definition row := list value.

Record sheet := {
  title : str;
  rows : list row
}.

(** A workbook: its worksheets in order. *)
Definition workbook := list sheet.

(** What the script can observe and change.  A PDF is seen through PyPDF2:
    opening and parsing it either raises or gives its pages, and
    [extract_text] on a page either raises or gives its text.  A workbook
    file is one that openpyxl wrote: [xlsx_at] gives the workbook it was
    saved from, the cells as they were handed to the sheets, or the
    exception that opening the file raises.  What comes back when such a
    file is read is [load_workbook] below. *)
Record world := {
  listdir : str -> outcome (list str);          (* os.listdir *)
  pdf_at : str -> outcome (list (outcome str)); (* open + PdfReader *)
  xlsx_at : str -> option (outcome workbook);   (* None: no such file *)
  stdout : list (list value)                    (* printed lines, as pieces *)
}.

(** The platform: the Unicode tables; [os.path.join]; the characters that
    separate the components of a path ([os.sep] and [os.altsep]); the
    directory listings once a file has been created at a path; and the
    value openpyxl reads back from a cell of text, an integer or a truth
    value that it wrote, which depends on its version and on the XML
    library underneath. *)
Record platform := {
  unicode : ucd;
  path_join : str -> str -> str;
  separators : list codepoint;
  created : str -> (str -> outcome (list str)) -> str -> outcome (list str);
  reread : value -> value
}.

(** State and exceptions. *)
Definition M (A : Type) : Type := world -> outcome A * world.

Definition ret {A} (a : A) : M A := fun w => (Ok a, w).
Definition raise {A} (e : exn) : M A := fun w => (Raise e, w).
Definition bind {A B} (c : M A) (k : A -> M B) : M B :=
  fun w =>
    match c w with
    | (Ok a, w') => k a w'
    | (Raise e, w') => (Raise e, w')
    end.
Definition lift {A} (o : outcome A) : M A := fun w => (o, w).
Definition get {A} (f : world -> A) : M A := fun w => (Ok (f w), w).

Notation "x <- c ;; k" := (bind c (fun x => k))
  (at level 61, c at next level, right associativity).
Notation "c ;;; k" := (bind c (fun _ => k))
  (at level 61, right associativity).

(** [print(f"...")], the f-string given by its pieces.  Standard output is
    taken to accept every character. *)
Definition print (pieces : list value) : M unit :=
  fun w =>
    (Ok tt, {| listdir := listdir w; pdf_at := pdf_at w;
               xlsx_at := xlsx_at w; stdout := stdout w ++ [pieces] |}).

(** [workbook.save(path)]: the file at [path] is this workbook from now
    on, and no PDF; a file that did not exist before shows in the
    listings.  The directory of [path] is taken to exist and to accept the
    file. *)
Definition save (P : platform) (wb : workbook) (path : str) : M unit :=
  fun w =>
    (Ok tt, {| listdir := match xlsx_at w path with
                          | None => created P path (listdir w)
                          | Some _ => listdir w
                          end;
               pdf_at := fun p => if str_eqb p path then Raise PdfReadError
                                  else pdf_at w p;
               xlsx_at := fun p => if str_eqb p path then Some (Ok wb)
                                   else xlsx_at w p;
               stdout := stdout w |}).

(** [os.listdir(directory)] *)
Definition os_listdir (directory : str) : M (list str) :=
  fun w => (listdir w directory, w).

(** [open(path, 'rb')], [PdfReader(file)] and [reader.pages]. *)
Definition read_pdf (path : str) : M (list (outcome str)) :=
  fun w => (pdf_at w path, w).

(** A [for] loop that threads an accumulator. *)
Fixpoint for_each {A B} (l : list A) (acc : B) (body : B -> A -> M B) : M B :=
  match l with
  | [] => ret acc
  | a :: l' => acc' <- body acc a ;; for_each l' acc' body
  end.

(** Two worlds with the same files; only what was printed may differ. *)
Definition same_files (w w' : world) : Prop :=
  listdir w = listdir w' /\ pdf_at w = pdf_at w' /\ xlsx_at w = xlsx_at w'.

(** ** openpyxl *)

(** [Workbook()]: one empty worksheet, which is the active one. *)
Definition Workbook : workbook := [{| title := lit "Sheet"; rows := [] |}].

(** Index of the first worksheet called [name] ([workbook[name]]). *)
Fixpoint find_sheet (name : str) (wb : workbook) : option nat :=
  match wb with
  | [] => None
  | s :: wb' =>
      if str_eqb (title s) name then Some 0
      else option_map S (find_sheet name wb')
  end.

(** Change the worksheet at index [i]; a worksheet object is a reference
    into its workbook. *)
Fixpoint update_sheet (i : nat) (f : sheet -> sheet) (wb : workbook)
  {struct wb} : workbook :=
  match wb, i with
  | [], _ => []
  | s :: wb', 0 => f s :: wb'
  | s :: wb', S j => s :: update_sheet j f wb'
  end.

(** [sheet.title = name] *)
Definition set_title (name : str) (s : sheet) : sheet :=
  {| title := name; rows := rows s |}.

(** The characters a cell refuses ([ILLEGAL_CHARACTERS_RE]): the control
    characters other than tab, line feed and carriage return. *)
Definition illegal_character (c : codepoint) : bool :=
  in_range 0 8 c || in_range 11 12 c || in_range 14 31 c.

(** What a cell keeps of the value it is given ([Cell.check_string]): of a
    string, the first 32767 characters. *)
Definition cell_limit : nat := N.to_nat 32767.

Definition kept (v : value) : value :=
  match v with
  | VStr s => VStr (firstn cell_limit s)
  | _ => v
  end.
Arguments kept : simpl never.

(** A value a cell accepts: what is kept of a string has no illegal
    character. *)
Definition accepted (v : value) : bool :=
  match kept v with
  | VStr s => negb (existsb illegal_character s)
  | _ => true
  end.

(** A new row below the last one. *)
Definition add_row (r : row) (s : sheet) : sheet :=
  {| title := title s; rows := rows s ++ [r] |}.

(** Several new rows. *)
Definition append_rows (rs : list row) (s : sheet) : sheet :=
  {| title := title s; rows := rows s ++ rs |}.

(** [sheet.append(r)], for the sheet at index [i] of its workbook: a new
    row of cells, or [IllegalCharacterError] from a cell that refuses its
    value. *)
Definition append (i : nat) (r : list value) (wb : workbook)
  : outcome workbook :=
  if forallb accepted r then Ok (update_sheet i (add_row (map kept r)) wb)
  else Raise IllegalCharacterError.

(** [os.path.splitext(path)[-1]]: the last component of the path from its
    last dot on, when something other than dots comes before that dot. *)
Fixpoint rsplit (test : codepoint -> bool) (s : str) : option (str * str) :=
  match s with
  | [] => None
  | c :: s' =>
      match rsplit test s' with
      | Some (a, b) => Some (c :: a, b)
      | None => if test c then Some ([], s') else None
      end
  end.

Definition is_dot (c : codepoint) : bool := (c =? 46)%N.

Definition extension (seps : list codepoint) (path : str) : str :=
  let base :=
    match rsplit (fun c => existsb (N.eqb c) seps) path with
    | Some (_, b) => b
    | None => path
    end in
  match rsplit is_dot base with
  | Some (stem, e) => if forallb is_dot stem then [] else 46%N :: e
  | None => []
  end.

(** [str.lower] on the letters of the extensions below: no character but
    an ASCII capital has one of them for its lower case. *)
Definition lower (c : codepoint) : codepoint :=
  if in_range 65 90 c then (c + 32)%N else c.

(** The names [load_workbook] accepts ([SUPPORTED_FORMATS]). *)
Definition supported (seps : list codepoint) (path : str) : bool :=
  existsb (str_eqb (map lower (extension seps path)))
          [lit ".xlsx"; lit ".xlsm"; lit ".xltx"; lit ".xltm"].

(** ** The script *)

(** The tuple [extract_dividend_details] returns. *)
Definition record := (value * value * value * value)%type.

(** The tuple as the sequence of values that [sheet.append] walks. *)
Definition entry_values (entry : record) : list value :=
  let '(date, name, dividend_details, amount) := entry in
  [date; name; dividend_details; amount].

(** The row of cells [sheet.append] makes of it. *)
Definition row_of (entry : record) : row := map kept (entry_values entry).

(** A tuple every cell of which is accepted. *)
Definition legal (entry : record) : bool :=
  forallb accepted (entry_values entry).

Definition header : row :=
  [VStr (lit "Date"); VStr (lit "Name");
   VStr (lit "Dividend Details"); VStr (lit "Amount")].

Section Script.
Variable P : platform.
Local Abbreviation U := (unicode P).

(** Lines 50-67 of [extract_dividend_details]: the four searches on the
    text of the page. *)
Definition extract_fields (text : str) : M (option record) :=
  let date_match := re_search U text (date_re U) in
  let name_match := re_search U text (name_re U) in
  let dividend_match := re_search U text (dividend_re U) in
  let amount_match := re_search U text (amount_re U) in
  match date_match, name_match, dividend_match, amount_match with
  | Some dm, Some nm, Some vm, Some am =>
      let date := group text dm 0 in
      let name := group text nm 0 in
      let dividend_details := group text vm 1 in
      amount <- lift (py_float U (group text am 1)) ;;
      print [VStr (lit "Extracted details - Date: "); date;
             VStr (lit ", Name: "); name;
             VStr (lit ", Dividend Details: "); dividend_details;
             VStr (lit ", Amount: "); amount; VStr [10%N]] ;;;
      ret (Some (date, name, dividend_details, amount))
  | _, _, _, _ => ret None
  end.

Definition extract_dividend_details (pdf_path : str) : M (option record) :=
  reader_pages <- read_pdf pdf_path ;;
  if length reader_pages <? 3 then
    print [VStr (lit "PDF "); VStr pdf_path;
           VStr (lit " does not have at least 3 pages.")] ;;;
    ret None
  else
    match nth_error reader_pages 2 with
    | Some page =>
        text <- lift page ;;
        print [VStr (lit "Text from page 3 of "); VStr pdf_path;
               VStr [58%N; 10%N]; VStr text; VStr [10%N]] ;;;
        extract_fields text
    | None => raise IndexError
    end.

(** A cell of a workbook file, as [load_workbook] reads it. *)
Definition reread_cell (v : value) : value :=
  match v with
  | VNone => VNone
  | VFloat f => reread_float f
  | _ => reread P v
  end.

Definition reread_sheet (s : sheet) : sheet :=
  {| title := title s; rows := map (map reread_cell) (rows s) |}.

(** [load_workbook(path)]: the name is looked at first, then the file. *)
Definition load_workbook (path : str) : M workbook :=
  fun w =>
    if supported (separators P) path then
      match xlsx_at w path with
      | Some (Ok wb) => (Ok (map reread_sheet wb), w)
      | Some (Raise e) => (Raise e, w)
      | None => (Raise OSError, w)
      end
    else (Raise InvalidFileException, w).

Definition update_excel (file_path : str) (data : list record) : M unit :=
  existing <- get (fun w => xlsx_at w file_path) ;;
  opened <-
    match existing with
    | None =>
        let workbook := Workbook in
        let sheet := 0 in
        let workbook :=
          update_sheet sheet (set_title (lit "Dividends")) workbook in
        workbook <- lift (append sheet header workbook) ;;
        ret (workbook, sheet)
    | Some _ =>
        workbook <- load_workbook file_path ;;
        match find_sheet (lit "Dividends") workbook with
        | Some i => ret (workbook, i)
        | None => raise KeyError
        end
    end ;;
  let '(workbook, sheet) := opened in
  workbook <-
    for_each data workbook
             (fun wb entry => lift (append sheet (entry_values entry) wb)) ;;
  save P workbook file_path.

(** The body of the loop of [process_pdfs], lines 92-96. *)
Definition loop_body (directory : str) (dividend_data : list record)
           (filename : str) : M (list record) :=
  if endswith filename (lit ".pdf") then
    let pdf_path := path_join P directory filename in
    details <- extract_dividend_details pdf_path ;;
    match details with
    | Some d => ret (dividend_data ++ [d])
    | None => ret dividend_data
    end
  else ret dividend_data.

Definition process_pdfs (directory excel_path : str) : M unit :=
  names <- os_listdir directory ;;
  dividend_data <- for_each names [] (loop_body directory) ;;
  update_excel excel_path dividend_data.

(** The two paths the script is set up with, and its last line. *)
Definition pdf_directory : str := lit "/path/to/pdf_directory".
Definition excel_file_path : str := lit "/path/to/output_excel_file.xlsx".
Definition main : M unit := process_pdfs pdf_directory excel_file_path.

(** What the loop comes to when every document is read in one and the
    same world [w]: the script changes no PDF while it runs. *)
Fixpoint loop_pure (directory : str) (w : world) (names : list str)
         (dividend_data : list record) : outcome (list record) :=
  match names with
  | [] => Ok dividend_data
  | filename :: names' =>
      if endswith filename (lit ".pdf") then
        match fst (extract_dividend_details
                     (path_join P directory filename) w) with
        | Ok (Some d) => loop_pure directory w names' (dividend_data ++ [d])
        | Ok None => loop_pure directory w names' dividend_data
        | Raise e => Raise e
        end
      else loop_pure directory w names' dividend_data
  end.
End Script.

(** ** What the patterns denote

    The matcher above is operational.  The following is the usual reading of
    a pattern as a set of spans [(i, j)] of the text, [j] exclusive. *)

Section Denotation.
Variable U : ucd.
Variable text : str.

(** The character at position [k] exists and is in the class [p]. *)
Definition class_at (p : codepoint -> bool) (k : nat) : Prop :=
  exists c, nth_error text k = Some c /\ p c = true.

(** Every position of [[i, j)] holds a character of the class [p]. *)
Definition all_in (p : codepoint -> bool) (i j : nat) : Prop :=
  forall k, i <= k < j -> class_at p k.

(** The literal [s] stands at position [i]. *)
Definition lit_at (s : str) (i : nat) : Prop :=
  slice text i (i + length s) = s.

Fixpoint denotes (r : regex) (i j : nat) : Prop :=
  match r with
  | Lit s => lit_at s i /\ j = i + length s
  | Cls p => class_at p i /\ j = S i
  | Rep n p => all_in p i j /\ j = i + n
  | Plus p => all_in p i j /\ i < j
  | Bound => at_boundary U text i = true /\ j = i
  | Seq r1 r2 => exists k, denotes r1 i k /\ denotes r2 k j
  | Alt r1 r2 => denotes r1 i j \/ denotes r2 i j
  | Group _ r' => denotes r' i j
  end.

(** *** The four patterns, in words *)

(** Two digits, three letters, two digits. *)
Definition date_at (i j : nat) : Prop :=
  all_in (cls_digit U) i (i + 2) /\
  all_in cls_alpha (i + 2) (i + 5) /\
  all_in (cls_digit U) (i + 5) (i + 7) /\
  j = i + 7.

(** One or more digits, a dot, one or more digits. *)
Definition decimal_at (i j : nat) : Prop :=
  exists d,
    i < d /\ all_in (cls_digit U) i d /\
    lit_at (lit ".") d /\
    d + 1 < j /\ all_in (cls_digit U) (d + 1) j.

(** An integer, [@], a decimal. *)
Definition dividend_at (i j : nat) : Prop :=
  exists a,
    i < a /\ all_in (cls_digit U) i a /\
    lit_at (lit "@") a /\
    decimal_at (a + 1) j.

(** The token [Dividend], one whitespace character, a decimal. *)
Definition amount_at (i j : nat) : Prop :=
  lit_at (lit "Dividend") i /\
  class_at (cls_space U) (i + 8) /\
  decimal_at (i + 9) j.

Definition suffixes : list str :=
  [lit "Ltd"; lit "PLC"; lit "Inc"; lit "Corp"; lit "Co"; lit "Group"].

(** A run of letters, whitespace, [&] and [-] that ends in one of the
    corporate suffixes, between two word boundaries. *)
Definition name_at (i j : nat) : Prop :=
  at_boundary U text i = true /\
  (exists k suf,
      i < k /\ all_in (cls_name U) i k /\
      In suf suffixes /\ lit_at suf k /\ j = k + length suf) /\
  at_boundary U text j = true.

(** [(i, j)] is the first occurrence: none starts further left, and none
    that starts at [i] is longer. *)
Definition first_occ (occ : nat -> nat -> Prop) (i j : nat) : Prop :=
  occ i j /\
  forall i' j', occ i' j' -> i < i' \/ (i' = i /\ j' <= j).

(** [(i, j)] is the only occurrence. *)
Definition only_occ (occ : nat -> nat -> Prop) (i j : nat) : Prop :=
  occ i j /\
  forall i' j', occ i' j' -> i' = i /\ j' = j.

(** No occurrence at all. *)
Definition no_occ (occ : nat -> nat -> Prop) : Prop :=
  forall i j, ~ occ i j.
End Denotation.

(** The matcher is greedy: of the ways a pattern matches at one position,
    the one it tries first should end furthest right. *)
Definition longest_first (l : list mstate) : Prop :=
  match l with
  | [] => True
  | st :: _ => forall st', In st' l -> fst st' <= fst st
  end.

(** Every span of [r] in the text, by running the matcher at each
    position; [is_first] and [is_only] decide [first_occ] and [only_occ]
    on such a list. *)
Definition all_spans (U : ucd) (text : str) (r : regex) : list (nat * nat) :=
  flat_map (fun i => map (fun st => (i, fst st)) (matches U text r (i, [])))
           (seq 0 (S (length text))).

Definition is_span (i j : nat) (x : nat * nat) : bool :=
  (fst x =? i) && (snd x =? j).

Definition is_first (l : list (nat * nat)) (i j : nat) : bool :=
  existsb (is_span i j) l &&
  forallb (fun x => (i <? fst x) || ((fst x =? i) && (snd x <=? j))) l.

Definition is_only (l : list (nat * nat)) (i j : nat) : bool :=
  existsb (is_span i j) l && forallb (is_span i j) l.

(** A document that raises: PyPDF2 cannot open it, or cannot extract its
    third page. *)
Definition unreadable (w : world) (pdf_path : str) (e : exn) : Prop :=
  pdf_at w pdf_path = Raise e \/
  exists pages,
    pdf_at w pdf_path = Ok pages /\ nth_error pages 2 = Some (Raise e).

(** "One bad document never aborts the batch": with a directory that can
    be listed and no workbook yet, every run completes and saves one. *)
Definition failures_are_local (P : platform) : Prop :=
  forall w d e names,
    listdir w d = Ok names ->
    xlsx_at w e = None ->
    exists w' wb,
      process_pdfs P d e w = (Ok tt, w') /\ xlsx_at w' e = Some (Ok wb).

(** The records one entry of the directory contributes to the run. *)
Definition yield (P : platform) (directory : str) (w : world)
           (filename : str) : list record :=
  if endswith filename (lit ".pdf") then
    match fst (extract_dividend_details
                 P (path_join P directory filename) w) with
    | Ok (Some d) => [d]
    | _ => []
    end
  else [].

(** A float that is zero, positive or plus infinity: no NaN, no sign. *)
Definition is_nonneg (f : spec_float) : bool :=
  match f with
  | S754_zero false | S754_finite false _ _ | S754_infinity false => true
  | _ => false
  end.

(** ** Sample inputs *)

(** [posixpath.join] of two components, with the ASCII-only tables. *)
Definition posix_join (a b : str) : str :=
  if prefixb (lit "/") b then b
  else if match a with [] => true | _ => endswith a (lit "/") end then a ++ b
  else a ++ lit "/" ++ b.

(** A file system in which a new file is listed last in the directory it
    lies in, a path without a slash lying in [.]. *)
Definition posix_created (path : str) (ls : str -> outcome (list str))
           (d : str) : outcome (list str) :=
  match ls d with
  | Ok names =>
      match rsplit (N.eqb 47) path with
      | Some (_, name) =>
          if str_eqb (posix_join d name) path then Ok (names ++ [name])
          else Ok names
      | None =>
          if str_eqb d (lit ".") then Ok (names ++ [path]) else Ok names
      end
  | Raise e => Raise e
  end.

(** Text, integers and truth values read back as they were written, the
    empty string as an empty cell. *)
Definition posix_reread (v : value) : value :=
  match v with
  | VStr [] => VNone
  | _ => v
  end.

Definition posix : platform :=
  {| unicode := ascii_only; path_join := posix_join;
     separators := [47%N]; created := posix_created;
     reread := posix_reread |}.

(** A page with one dividend. *)
Definition statement_text : str :=
  lit "15Mar24 Acme Corp 500@0.25 Dividend 123.45".

(** A page on which each pattern has a single occurrence. *)
Definition terse_text : str := lit "01Jan24.ACo 5@0.2 Dividend 1.5".

(** Pages that lack one field each. *)
Definition no_date_text : str := lit "Acme Corp 500@0.25 Dividend 123.45".
Definition no_name_text : str := lit "15Mar24 Acme 500@0.25 Dividend 123.45".
Definition no_dividend_text : str := lit "15Mar24 Acme Corp Dividend 123.45".
Definition no_amount_text : str := lit "15Mar24 Acme Corp 500@0.25".

(** 123.45 as a binary64 number, 0x1.edccccccccccdp+6. *)
Definition float_123_45 : spec_float := S754_finite false 8687021468732621 (-46).

(** 1.5 *)
Definition float_1_5 : spec_float := S754_finite false 6755399441055744 (-52).

(** A world without files. *)
Definition empty_world : world :=
  {| listdir := fun _ => Raise OSError;
     pdf_at := fun _ => Raise OSError;
     xlsx_at := fun _ => None;
     stdout := [] |}.

(** A document of three pages with the dividend on the third, one of two
    pages, and one with a terse third page. *)
Definition statement_pdf : list (outcome str) :=
  [Ok (lit "Contract note"); Ok (lit "Charges"); Ok statement_text].
Definition short_pdf : list (outcome str) :=
  [Ok (lit "Contract note"); Ok statement_text].
Definition terse_pdf : list (outcome str) :=
  [Ok []; Ok []; Ok terse_text; Ok []].

Definition sample_files (p : str) : outcome (list (outcome str)) :=
  if str_eqb p (lit "dir/a.pdf") then Ok statement_pdf
  else if str_eqb p (lit "dir/short.pdf") then Ok short_pdf
  else if str_eqb p (lit "dir/b.pdf") then Ok terse_pdf
  else if str_eqb p (lit "dir/bad.pdf") then Raise PdfReadError
  else Raise OSError.

(** A directory with two dividend statements, a document of two pages and
    a file that is no PDF; no workbook yet. *)
Definition sample_world : world :=
  {| listdir := fun _ =>
       Ok [lit "a.pdf"; lit "short.pdf"; lit "notes.txt"; lit "b.pdf"];
     pdf_at := sample_files;
     xlsx_at := fun _ => None;
     stdout := [] |}.

(** The same directory without the document of two pages. *)
Definition sample_world_less : world :=
  {| listdir := fun _ => Ok [lit "a.pdf"; lit "notes.txt"; lit "b.pdf"];
     pdf_at := sample_files;
     xlsx_at := fun _ => None;
     stdout := [] |}.

(** A directory whose first document cannot be parsed. *)
Definition broken_world : world :=
  {| listdir := fun _ => Ok [lit "bad.pdf"; lit "a.pdf"];
     pdf_at := sample_files;
     xlsx_at := fun _ => None;
     stdout := [] |}.

(** A workbook without a sheet "Dividends", and one that has it below a
    header, with two rows of data. *)
Definition other_book : workbook :=
  [{| title := lit "Sheet1"; rows := [[VStr (lit "memo")]] |}].

(** 12.5 and 10.25 *)
Definition float_12_5 : spec_float :=
  Eval vm_compute in decimal_to_float 125 1.
Definition float_10_25 : spec_float :=
  Eval vm_compute in decimal_to_float 1025 2.

Definition ledger_rows : list row :=
  [[VStr (lit "02Feb23"); VStr (lit "Old Co"); VStr (lit "10@1.25");
    VFloat float_12_5];
   [VStr (lit "03Mar23"); VStr (lit "Older Ltd"); VStr (lit "4@2.5625");
    VFloat float_10_25]].

Definition ledger_book : workbook :=
  [{| title := lit "Notes"; rows := [[VStr (lit "memo")]] |};
   {| title := lit "Dividends"; rows := header :: ledger_rows |}].

Definition with_book (wb : workbook) (w : world) : world :=
  {| listdir := listdir w; pdf_at := pdf_at w;
     xlsx_at := fun _ => Some (Ok wb);
     stdout := stdout w |}.

(** A directory from which no record comes: a document of two pages, a
    file that is no PDF and a PDF without a dividend on its third page. *)
Definition idle_files (p : str) : outcome (list (outcome str)) :=
  if str_eqb p (lit "dir/short.pdf") then Ok short_pdf
  else if str_eqb p (lit "dir/cover.pdf")
       then Ok [Ok []; Ok []; Ok no_amount_text]
  else Raise OSError.

Definition idle_world : world :=
  {| listdir := fun _ => Ok [lit "short.pdf"; lit "notes.txt"; lit "cover.pdf"];
     pdf_at := idle_files;
     xlsx_at := fun _ => None;
     stdout := [] |}.

(** The sample directory, listed in another order. *)
Definition sample_world_reordered : world :=
  {| listdir := fun _ =>
       Ok [lit "b.pdf"; lit "notes.txt"; lit "a.pdf"; lit "short.pdf"];
     pdf_at := sample_files;
     xlsx_at := fun _ => None;
     stdout := [] |}.

(** A workbook whose sheet "Dividends" has no row at all. *)
Definition blank_book : workbook :=
  [{| title := lit "Dividends"; rows := [] |};
   {| title := lit "Notes"; rows := [[VStr (lit "memo")]] |}].

(** A directory whose second document cannot be parsed. *)
Definition halting_world : world :=
  {| listdir := fun _ => Ok [lit "a.pdf"; lit "bad.pdf"; lit "b.pdf"];
     pdf_at := sample_files;
     xlsx_at := fun _ => None;
     stdout := [] |}.

(** A page on which a form feed separates the two words of the name, and
    the record the extractor makes of it. *)
Definition form_feed_text : str :=
  lit "15Mar24 Acme" ++ [12%N] ++ lit "Corp 500@0.25 Dividend 123.45".

Definition form_feed_entry : record :=
  (VStr (lit "15Mar24"), VStr (lit " Acme" ++ [12%N] ++ lit "Corp"),
   VStr (lit "500@0.25"), VFloat float_123_45).

Definition form_feed_world : world :=
  {| listdir := fun _ => Ok [lit "ff.pdf"];
     pdf_at := fun p => if str_eqb p (lit "dir/ff.pdf")
                        then Ok [Ok []; Ok []; Ok form_feed_text]
                        else Raise OSError;
     xlsx_at := fun _ => None;
     stdout := [] |}.

(** An amount of 17 significant digits, the float it is read as and the
    float of its first 16 digits. *)
Definition fine_text : str :=
  lit "15Mar24 Acme Corp 500@0.25 Dividend 0.30000000000000004".

Definition float_0_30000000000000004 : spec_float :=
  Eval vm_compute in decimal_to_float 30000000000000004 17.

Definition float_0_3 : spec_float :=
  Eval vm_compute in decimal_to_float 3 1.

Definition fine_entry : record :=
  (VStr (lit "15Mar24"), VStr (lit " Acme Corp"),
   VStr (lit "500@0.25"), VFloat float_0_30000000000000004).

(** An amount of 400 digits before the point: too large for a float. *)
Definition huge_text : str :=
  lit "15Mar24 Acme Corp 500@0.25 Dividend " ++ repeat 57%N 400 ++ lit ".0".

Definition huge_entry : record :=
  (VStr (lit "15Mar24"), VStr (lit " Acme Corp"),
   VStr (lit "500@0.25"), VFloat (S754_infinity false)).

(** * Properties *)

Unset Implicit Arguments.

(** ** Lists and text *)

Lemma nth_error_skipn_add (A : Type) (l : list A) (i k : nat) :
  nth_error (skipn i l) k = nth_error l (i + k).
Proof.
  revert l; induction i as [|i IH]; intros l; simpl.
  - reflexivity.
  - destruct l as [|a l]; simpl.
    + now destruct k.
    + apply IH.
Qed.

Lemma prefixb_spec (s t : str) :
  prefixb s t = true <-> firstn (length s) t = s.
Proof.
  revert t; induction s as [|a s IH]; intros t; simpl.
  - tauto.
  - destruct t as [|b t]; simpl.
    + split; discriminate.
    + rewrite andb_true_iff, N.eqb_eq, IH. split.
      * intros [-> ->]. reflexivity.
      * intros H. injection H as -> H. auto.
Qed.

Lemma span_spec (p : codepoint -> bool) (s : str) (n : nat) :
  n <= span p s <->
  (forall k, k < n -> exists c, nth_error s k = Some c /\ p c = true).
Proof.
  revert n; induction s as [|a s IH]; intros n; simpl.
  - split.
    + intros H k Hk. lia.
    + intros H. destruct n as [|n]; [lia|].
      destruct (H 0) as [c [Hc _]]; [lia|]. discriminate.
  - destruct (p a) eqn:Ha.
    + destruct n as [|n].
      * split; [intros _ k Hk; lia | lia].
      * rewrite <- Nat.succ_le_mono, IH. split.
        -- intros H [|k] Hk; simpl.
           ++ eauto.
           ++ apply H. lia.
        -- intros H k Hk. apply (H (S k)). lia.
    + split.
      * intros H k Hk. lia.
      * intros H. destruct n as [|n]; [lia|].
        destruct (H 0) as [c [Hc Hp]]; [lia|].
        simpl in Hc. injection Hc as <-. congruence.
Qed.

Lemma In_down (k n : nat) : In k (down n) <-> 1 <= k <= n.
Proof.
  induction n as [|n IH]; simpl.
  - lia.
  - rewrite IH. lia.
Qed.

(** ** The matcher finds exactly what the pattern denotes *)

Section MatcherFacts.
Variable U : ucd.
Variable text : str.

Local Abbreviation ms := (matches U text).
Local Abbreviation den := (denotes U text).
Local Abbreviation allin := (all_in text).

Lemma all_in_span (p : codepoint -> bool) (i n : nat) :
  allin p i (i + n) <-> n <= span p (skipn i text).
Proof.
  rewrite span_spec. unfold all_in, class_at. split.
  - intros H k Hk. rewrite nth_error_skipn_add. apply H. lia.
  - intros H k Hk. specialize (H (k - i)).
    rewrite nth_error_skipn_add in H.
    replace (i + (k - i)) with k in H by lia. apply H. lia.
Qed.

Lemma lit_at_prefixb (s : str) (i : nat) :
  lit_at text s i <-> prefixb s (skipn i text) = true.
Proof.
  unfold lit_at, slice. rewrite prefixb_spec.
  now replace (i + length s - i) with (length s) by lia.
Qed.

Lemma matches_sound (r : regex) :
  forall st st', In st' (ms r st) -> den r (fst st) (fst st').
Proof.
  induction r as [s|p|n p|p| |r1 IH1 r2 IH2|r1 IH1 r2 IH2|g r IH];
    intros st st'; simpl.
  - destruct (prefixb s (skipn (fst st) text)) eqn:E; simpl; [|tauto].
    intros [<-|[]]. simpl. split; [|reflexivity].
    now apply lit_at_prefixb.
  - destruct (nth_error text (fst st)) as [c|] eqn:E; [|simpl; tauto].
    destruct (p c) eqn:Ep; simpl; [|tauto].
    intros [<-|[]]. simpl. split; [|reflexivity]. exists c. auto.
  - destruct (n <=? span p (skipn (fst st) text)) eqn:E; simpl; [|tauto].
    intros [<-|[]]. simpl. split; [|reflexivity].
    apply all_in_span. now apply Nat.leb_le.
  - rewrite in_map_iff. intros [k [<- Hk]]. simpl.
    apply In_down in Hk. split; [|lia].
    apply all_in_span. lia.
  - destruct (at_boundary U text (fst st)) eqn:E; simpl; [|tauto].
    intros [<-|[]]. auto.
  - rewrite in_flat_map. intros [st1 [H1 H2]].
    exists (fst st1). split; [now apply IH1 | now apply IH2].
  - rewrite in_app_iff. intros [H|H]; [left; now apply IH1 | right; now apply IH2].
  - rewrite in_map_iff. intros [st1 [<- H]]. simpl. now apply IH.
Qed.

Lemma matches_complete (r : regex) :
  forall i j gs, den r i j -> exists gs', In (j, gs') (ms r (i, gs)).
Proof.
  induction r as [s|p|n p|p| |r1 IH1 r2 IH2|r1 IH1 r2 IH2|g r IH];
    intros i j gs; simpl.
  - intros [H ->]. apply lit_at_prefixb in H. rewrite H.
    exists gs. now left.
  - intros [[c [Hc Hp]] ->]. rewrite Hc, Hp. exists gs. now left.
  - intros [H ->]. apply all_in_span in H.
    apply Nat.leb_le in H. rewrite H. exists gs. now left.
  - intros [H Hij]. exists gs. apply in_map_iff.
    exists (j - i). split; [f_equal; lia|].
    apply In_down. replace j with (i + (j - i)) in H by lia.
    apply all_in_span in H. lia.
  - intros [H ->]. rewrite H. exists gs. now left.
  - intros [k [H1 H2]].
    destruct (IH1 i k gs H1) as [gs1 Hin1].
    destruct (IH2 k j gs1 H2) as [gs2 Hin2].
    exists gs2. apply in_flat_map. eauto.
  - intros [H|H].
    + destruct (IH1 i j gs H) as [gs' Hin]. exists gs'.
      apply in_app_iff. auto.
    + destruct (IH2 i j gs H) as [gs' Hin]. exists gs'.
      apply in_app_iff. auto.
  - intros H. destruct (IH i j gs H) as [gs' Hin].
    exists ((g, (i, j)) :: gs'). apply in_map_iff.
    exists (j, gs'). auto.
Qed.

(** A span a pattern den runs forward, and a non-empty one lies inside
    the text. *)
Lemma all_in_bound (p : codepoint -> bool) (i j : nat) :
  allin p i j -> i < j -> j <= length text.
Proof.
  intros H Hij. destruct (H (j - 1)) as [c [Hc _]]; [lia|].
  assert (j - 1 < length text) by (apply nth_error_Some; congruence). lia.
Qed.

Lemma lit_at_bound (s : str) (i : nat) :
  lit_at text s i -> s <> [] -> i + length s <= length text.
Proof.
  unfold lit_at, slice. intros H Hs.
  assert (L : length (firstn (i + length s - i) (skipn i text)) = length s)
    by now rewrite H.
  rewrite length_firstn, length_skipn in L.
  destruct s; [congruence|]. simpl in *. lia.
Qed.

Lemma denotes_forward (r : regex) :
  forall i j, den r i j -> i <= j /\ (i < j -> j <= length text).
Proof.
  induction r as [s|p|n p|p| |r1 IH1 r2 IH2|r1 IH1 r2 IH2|g r IH];
    intros i j; simpl.
  - intros [H ->]. split; [lia|]. intros Hlt.
    apply lit_at_bound; [assumption|]. destruct s; simpl in *; [lia|discriminate].
  - intros [[c [Hc _]] ->]. split; [lia|]. intros _.
    assert (i < length text) by (apply nth_error_Some; congruence). lia.
  - intros [H ->]. split; [lia|]. apply (all_in_bound _ _ _ H).
  - intros [H Hij]. split; [lia|]. apply (all_in_bound _ _ _ H).
  - intros [_ ->]. lia.
  - intros [k [H1 H2]]. apply IH1 in H1. apply IH2 in H2. lia.
  - intros [H|H]; [now apply IH1 | now apply IH2].
  - apply IH.
Qed.

(** *** [re.search] *)

Lemma match_at_Some (r : regex) (i : nat) (m : match_obj) :
  match_at U text r i = Some m ->
  m_start m = i /\
  exists rest, ms r (i, []) = (m_end m, m_groups m) :: rest.
Proof.
  unfold match_at. destruct (ms r (i, [])) as [|[e gs] rest] eqn:E.
  - discriminate.
  - intros H. injection H as <-. simpl. eauto.
Qed.

Lemma match_at_None (r : regex) (i : nat) :
  match_at U text r i = None <-> forall j, ~ den r i j.
Proof.
  unfold match_at. split.
  - destruct (ms r (i, [])) as [|st rest] eqn:E; [|discriminate].
    intros _ j H. destruct (matches_complete r i j [] H) as [gs' Hin].
    rewrite E in Hin. destruct Hin.
  - intros H. destruct (ms r (i, [])) as [|st rest] eqn:E; [reflexivity|].
    exfalso. apply (H (fst st)).
    apply (matches_sound r (i, []) st). rewrite E. now left.
Qed.

Lemma search_from_Some (r : regex) (n i : nat) (m : match_obj) :
  search_from U text r n i = Some m ->
  i <= m_start m < i + n /\
  match_at U text r (m_start m) = Some m /\
  forall k, i <= k < m_start m -> match_at U text r k = None.
Proof.
  revert i; induction n as [|n IH]; intros i; simpl.
  - discriminate.
  - destruct (match_at U text r i) as [m'|] eqn:E.
    + intros H. injection H as ->.
      destruct (match_at_Some _ _ _ E) as [Hs _]. rewrite Hs.
      split; [lia|]. split; [assumption|]. intros k Hk. lia.
    + intros H. destruct (IH _ H) as [H1 [H2 H3]].
      split; [lia|]. split; [assumption|].
      intros k Hk. destruct (Nat.eq_dec k i) as [->|Hne]; [assumption|].
      apply H3. lia.
Qed.

Lemma search_from_None (r : regex) (n i : nat) :
  search_from U text r n i = None ->
  forall k, i <= k < i + n -> match_at U text r k = None.
Proof.
  revert i; induction n as [|n IH]; intros i; simpl.
  - intros _ k Hk. lia.
  - destruct (match_at U text r i) as [m'|] eqn:E; [discriminate|].
    intros H k Hk. destruct (Nat.eq_dec k i) as [->|Hne]; [assumption|].
    apply (IH _ H). lia.
Qed.

(** For a pattern that matches no empty span, [re.search] fails exactly
    when the pattern denotes nothing. *)
Lemma re_search_None (r : regex) :
  (forall i j, den r i j -> i < j) ->
  (re_search U text r = None <-> forall i j, ~ den r i j).
Proof.
  intros NE. unfold re_search. split.
  - intros H i j D.
    assert (i < j) by now apply NE.
    assert (j <= length text) by now apply (denotes_forward r i j D).
    assert (E : match_at U text r i = None)
      by (apply (search_from_None _ _ _ H); lia).
    now apply (proj1 (match_at_None r i) E j).
  - intros H.
    destruct (search_from U text r (S (length text)) 0) as [m|] eqn:E;
      [|reflexivity].
    exfalso. destruct (search_from_Some _ _ _ _ E) as [_ [Hm _]].
    destruct (match_at_Some _ _ _ Hm) as [_ [rest Hr]].
    apply (H (m_start m) (m_end m)).
    apply (matches_sound r (m_start m, []) (m_end m, m_groups m)).
    rewrite Hr. now left.
Qed.

(** What [re.search] returns is a leftmost span of the pattern, and the
    one the matcher tries first at that position. *)
Lemma re_search_Some (r : regex) (m : match_obj) :
  re_search U text r = Some m ->
  den r (m_start m) (m_end m) /\
  (exists rest,
      ms r (m_start m, []) = (m_end m, m_groups m) :: rest) /\
  forall i j, den r i j -> m_start m <= i.
Proof.
  unfold re_search. intros E.
  destruct (search_from_Some _ _ _ _ E) as [_ [Hm Hleft]].
  destruct (match_at_Some _ _ _ Hm) as [_ [rest Hr]].
  split; [|split].
  - apply (matches_sound r (m_start m, []) (m_end m, m_groups m)).
    rewrite Hr. now left.
  - eauto.
  - intros i j D. destruct (le_lt_dec (m_start m) i) as [|Hlt]; [assumption|].
    exfalso. assert (En : match_at U text r i = None) by (apply Hleft; lia).
    now apply (proj1 (match_at_None r i) En j).
Qed.

(** A pattern with a span is found. *)
Lemma re_search_finds (r : regex) (i j : nat) :
  (forall i j, den r i j -> i < j) ->
  den r i j -> exists m, re_search U text r = Some m.
Proof.
  intros NE D. destruct (re_search U text r) as [m|] eqn:E; [eauto|].
  exfalso. now apply (proj1 (re_search_None r NE) E i j).
Qed.
End MatcherFacts.

(** ** The matcher tries the longest match first *)

Section Greedy.
Variable U : ucd.
Variable text : str.

Local Abbreviation ms := (matches U text).
Local Abbreviation den := (denotes U text).
Local Abbreviation allin := (all_in text).

Lemma longest_first_down (i n : nat) (gs : list (nat * (nat * nat))) :
  longest_first (map (fun k => (i + k, gs)) (down n)).
Proof.
  destruct n as [|n]; simpl; [exact I|].
  intros st' [<-|H]; simpl; [lia|].
  apply in_map_iff in H. destruct H as [k [<- Hk]].
  apply In_down in Hk. simpl. lia.
Qed.

Lemma longest_first_map (f : mstate -> mstate) (l : list mstate) :
  (forall st, fst (f st) = fst st) ->
  longest_first l -> longest_first (map f l).
Proof.
  intros Hf. destruct l as [|st l]; simpl; [auto|].
  intros H st' [<-|Hin].
  - lia.
  - apply in_map_iff in Hin. destruct Hin as [x [<- Hx]].
    rewrite !Hf. apply H. now right.
Qed.

(** When every span of [r] at a position ends at the same place, any
    order is longest first. *)
Lemma longest_first_semantic (r : regex) (st : mstate) :
  (forall j j', den r (fst st) j -> den r (fst st) j' -> j' <= j) ->
  longest_first (ms r st).
Proof.
  intros H. destruct (ms r st) as [|st0 l] eqn:E; simpl; [exact I|].
  intros st' Hin. apply H.
  - apply (matches_sound U text r st st0). rewrite E. now left.
  - apply (matches_sound U text r st st'). now rewrite E.
Qed.

(** A first part that matches in at most one way leaves the order to the
    second part. *)
Lemma longest_first_seq_det (r1 r2 : regex) (st : mstate) :
  length (ms r1 st) <= 1 ->
  (forall st1, longest_first (ms r2 st1)) ->
  longest_first (ms (Seq r1 r2) st).
Proof.
  intros Hlen H2. simpl.
  destruct (ms r1 st) as [|st1 [|st2 l]]; simpl in *.
  - exact I.
  - rewrite app_nil_r. apply H2.
  - lia.
Qed.

Lemma det_Lit (s : str) (st : mstate) : length (ms (Lit s) st) <= 1.
Proof. simpl. destruct (prefixb s _); simpl; lia. Qed.

Lemma det_Cls (p : codepoint -> bool) (st : mstate) :
  length (ms (Cls p) st) <= 1.
Proof.
  simpl. destruct (nth_error text (fst st)) as [c|]; simpl; [|lia].
  destruct (p c); simpl; lia.
Qed.

Lemma det_Bound (st : mstate) : length (ms Bound st) <= 1.
Proof. simpl. destruct (at_boundary U text (fst st)); simpl; lia. Qed.

(** After a greedy run, longer runs are tried first; the order is longest
    first as soon as what follows a longer run never ends before what
    follows a shorter one. *)
Lemma longest_first_plus_seq (p : codepoint -> bool) (r : regex)
      (i : nat) (gs : list (nat * (nat * nat))) :
  (forall k, longest_first (ms r (i + k, gs))) ->
  (forall k k' j j',
      k' < k -> den r (i + k) j -> den r (i + k') j' -> j' <= j) ->
  longest_first (ms (Seq (Plus p) r) (i, gs)).
Proof.
  intros Hr Hdom. simpl.
  generalize (span p (skipn i text)) as n.
  induction n as [|n IH]; simpl; [exact I|].
  destruct (ms r (i + S n, gs)) as [|y ys] eqn:E; simpl.
  - exact IH.
  - intros st' Hin.
    change (In st' ((y :: ys) ++
              flat_map (ms r) (map (fun k => (i + k, gs)) (down n)))) in Hin.
    apply in_app_iff in Hin. destruct Hin as [Hin|Hin].
    + specialize (Hr (S n)). rewrite E in Hr. now apply Hr.
    + apply in_flat_map in Hin. destruct Hin as [x [Hx Hst']].
      apply in_map_iff in Hx. destruct Hx as [k' [<- Hk']].
      apply In_down in Hk'.
      apply (Hdom (S n) k'); [lia| |].
      * apply (matches_sound U text r (i + S n, gs) y). rewrite E. now left.
      * apply (matches_sound U text r (i + k', gs) st' Hst').
Qed.

(** If the first way [r] matches at [i] ends at [e], no span of [r] at
    [i] ends beyond [e]. *)
Lemma head_longest (r : regex) (i e : nat) gs gs' rest :
  longest_first (ms r (i, gs)) ->
  ms r (i, gs) = (e, gs') :: rest ->
  forall j, den r i j -> j <= e.
Proof.
  intros L E j D. rewrite E in L. simpl in L.
  destruct (matches_complete U text r i j gs D) as [gs'' Hin].
  rewrite E in Hin. apply (L (j, gs'') Hin).
Qed.

(** *** Literals in the text *)

Lemma lit_at_nth (s : str) (i k : nat) :
  lit_at text s i -> k < length s ->
  nth_error text (i + k) = nth_error s k.
Proof.
  unfold lit_at, slice. intros H Hk.
  replace (i + length s - i) with (length s) in H by lia.
  transitivity (nth_error (firstn (length s) (skipn i text)) k);
    [|now rewrite H].
  rewrite nth_error_firstn.
  apply Nat.ltb_lt in Hk. rewrite Hk.
  symmetry. apply nth_error_skipn_add.
Qed.

Lemma lit_at_char (c : codepoint) (i : nat) :
  lit_at text [c] i -> nth_error text i = Some c.
Proof.
  intros H. apply lit_at_nth with (k := 0) in H; [|simpl; lia].
  now rewrite Nat.add_0_r in H.
Qed.
End Greedy.

(** ** The four patterns *)

Section PatternFacts.
Variable U : ucd.
Variable text : str.

Local Abbreviation ms := (matches U text).
Local Abbreviation den := (denotes U text).
Local Abbreviation allin := (all_in text).

Lemma denotes_date (i j : nat) :
  den (date_re U) i j <-> date_at U text i j.
Proof.
  unfold date_re, date_at. simpl. split.
  - intros [k [[H1 ->] [k' [[H2 ->] [H3 ->]]]]].
    replace (i + 2 + 3) with (i + 5) in * by lia.
    replace (i + 5 + 2) with (i + 7) in * by lia. auto.
  - intros [H1 [H2 [H3 ->]]].
    exists (i + 2). split; [auto|].
    exists (i + 5). split; [split; [auto|lia]|].
    split; [auto|lia].
Qed.

Lemma denotes_decimal (i j : nat) :
  den (decimal_re U) i j <-> decimal_at U text i j.
Proof.
  unfold decimal_re, decimal_at. simpl. split.
  - intros [k [[H1 Hk] [k' [[H2 ->] [H3 Hj]]]]].
    exists k. auto.
  - intros [d [Hd [H1 [H2 [Hj H3]]]]].
    exists d. split; [auto|].
    exists (d + 1). auto.
Qed.

Lemma denotes_dividend (i j : nat) :
  den (dividend_re U) i j <-> dividend_at U text i j.
Proof.
  unfold dividend_re, dividend_at.
  change (den (Group 1 (Seq (Plus (cls_digit U))
               (Seq (Lit (lit "@")) (decimal_re U)))) i j)
    with (exists k, (allin (cls_digit U) i k /\ i < k) /\
          exists k', (lit_at text (lit "@") k /\ k' = k + 1) /\
                     den (decimal_re U) k' j).
  split.
  - intros [k [[H1 Hk] [k' [[H2 ->] H3]]]].
    exists k. rewrite <- denotes_decimal. auto.
  - intros [a [Ha [H1 [H2 H3]]]].
    exists a. split; [auto|].
    exists (a + 1). rewrite denotes_decimal. auto.
Qed.

Lemma denotes_amount (i j : nat) :
  den (amount_re U) i j <-> amount_at U text i j.
Proof.
  unfold amount_re, amount_at.
  change (den (Seq (Lit (lit "Dividend"))
               (Seq (Cls (cls_space U)) (Group 1 (decimal_re U)))) i j)
    with (exists k, (lit_at text (lit "Dividend") i /\ k = i + 8) /\
          exists k', (class_at text (cls_space U) k /\ k' = S k) /\
                     den (decimal_re U) k' j).
  split.
  - intros [k [[H1 ->] [k' [[H2 ->] H3]]]].
    replace (S (i + 8)) with (i + 9) in H3 by lia.
    rewrite <- denotes_decimal. auto.
  - intros [H1 [H2 H3]].
    exists (i + 8). split; [auto|].
    exists (S (i + 8)). split; [auto|].
    replace (S (i + 8)) with (i + 9) by lia.
    now rewrite denotes_decimal.
Qed.

Lemma denotes_suffix (k j : nat) :
  den suffix_re k j <->
  exists suf, In suf suffixes /\ lit_at text suf k /\ j = k + length suf.
Proof.
  unfold suffix_re, suffixes. simpl. split.
  - intros H.
    repeat (destruct H as [H|H];
            [eexists; split; [|exact H]; simpl; tauto|]).
    eexists; split; [|exact H]; simpl; tauto.
  - intros [suf [Hin H]].
    repeat (destruct Hin as [<-|Hin]; [tauto|]). destruct Hin.
Qed.

Lemma denotes_name (i j : nat) :
  den (name_re U) i j <-> name_at U text i j.
Proof.
  unfold name_re, name_at.
  change (den (Group 1 (Seq Bound (Seq (Plus (cls_name U))
               (Seq (Group 2 suffix_re) Bound)))) i j)
    with (exists i', (at_boundary U text i = true /\ i' = i) /\
          exists k, (allin (cls_name U) i' k /\ i' < k) /\
          exists j', den suffix_re k j' /\
                     (at_boundary U text j' = true /\ j = j')).
  split.
  - intros [i' [[B ->] [k [[H1 Hk] [j' [H2 [B' ->]]]]]]].
    apply denotes_suffix in H2. destruct H2 as [suf [Hin [Hl ->]]].
    split; [assumption|]. split; [|assumption].
    exists k, suf. auto.
  - intros [B [[k [suf [Hk [H1 [Hin [Hl ->]]]]]] B']].
    exists i. split; [auto|].
    exists k. split; [auto|].
    exists (k + length suf). split; [|auto].
    apply denotes_suffix. eauto.
Qed.

(** Every occurrence is non-empty. *)
Lemma decimal_nonempty (i j : nat) : decimal_at U text i j -> i + 2 < j.
Proof. intros [d H]. lia. Qed.

Lemma date_nonempty (i j : nat) : den (date_re U) i j -> i < j.
Proof. rewrite denotes_date. unfold date_at. lia. Qed.

Lemma dividend_nonempty (i j : nat) : den (dividend_re U) i j -> i < j.
Proof.
  rewrite denotes_dividend. intros [a [Ha [_ [_ H]]]].
  apply decimal_nonempty in H. lia.
Qed.

Lemma amount_nonempty (i j : nat) : den (amount_re U) i j -> i < j.
Proof.
  rewrite denotes_amount. intros [_ [_ H]].
  apply decimal_nonempty in H. lia.
Qed.

Lemma name_nonempty (i j : nat) : den (name_re U) i j -> i < j.
Proof.
  rewrite denotes_name. intros [_ [[k [suf [Hk [_ [_ [_ ->]]]]]] _]]. lia.
Qed.
(** *** Greedy order of the four patterns *)

Lemma matches_Group (g : nat) (r : regex) (st : mstate) :
  ms (Group g r) st =
  map (fun st' => (fst st', (g, (fst st, fst st')) :: snd st')) (ms r st).
Proof. reflexivity. Qed.

Lemma date_longest (st : mstate) : longest_first (ms (date_re U) st).
Proof.
  apply longest_first_semantic. intros j j' H H'.
  apply denotes_date in H, H'. unfold date_at in *. lia.
Qed.

Lemma decimal_longest (st : mstate) : longest_first (ms (decimal_re U) st).
Proof.
  destruct st as [i gs]. unfold decimal_re.
  apply longest_first_plus_seq.
  - intros k. apply longest_first_seq_det; [apply det_Lit|].
    intros [i1 gs1]. apply longest_first_down.
  - intros k k' j j' Hk [m [[L ->] [A Hj]]] [m' [[L' ->] [A' Hj']]].
    simpl length in *.
    destruct (le_lt_dec j' j) as [|Hgt]; [assumption|]. exfalso.
    destruct (A' (i + k)) as [c [Hc Hd]]; [lia|].
    apply (lit_at_char text 46%N) in L. rewrite L in Hc.
    injection Hc as <-. discriminate Hd.
Qed.

(** A decimal is made of digits and one dot. *)
Lemma decimal_chars (a j : nat) :
  decimal_at U text a j ->
  forall k, a <= k < j ->
    class_at text (fun c => cls_digit U c || (c =? 46)%N) k.
Proof.
  intros [d [Hd [A1 [L [Hj A2]]]]] k Hk.
  destruct (lt_eq_lt_dec k d) as [[Hlt| ->]|Hgt].
  - destruct (A1 k) as [c [Hc Hp]]; [lia|]. exists c. now rewrite Hp.
  - apply (lit_at_char text 46%N) in L. exists 46%N. split; [assumption|].
    apply orb_true_r.
  - destruct (A2 k) as [c [Hc Hp]]; [lia|]. exists c. now rewrite Hp.
Qed.

Lemma dividend_longest (st : mstate) : longest_first (ms (dividend_re U) st).
Proof.
  destruct st as [i gs]. unfold dividend_re. rewrite matches_Group.
  apply longest_first_map; [reflexivity|].
  apply longest_first_plus_seq.
  - intros k. apply longest_first_seq_det; [apply det_Lit|].
    intros st1. apply decimal_longest.
  - intros k k' j j' Hk [m [[L ->] D]] [m' [[L' ->] D']].
    simpl length in *.
    apply denotes_decimal in D, D'.
    destruct (le_lt_dec j' j) as [|Hgt]; [assumption|]. exfalso.
    apply decimal_nonempty in D as Dn.
    destruct (decimal_chars _ _ D' (i + k)) as [c [Hc Hd]]; [lia|].
    apply (lit_at_char text 64%N) in L. rewrite L in Hc.
    injection Hc as <-. discriminate Hd.
Qed.

Lemma amount_longest (st : mstate) : longest_first (ms (amount_re U) st).
Proof.
  unfold amount_re.
  apply longest_first_seq_det; [apply det_Lit|]. intros st1.
  apply longest_first_seq_det; [apply det_Cls|]. intros st2.
  rewrite matches_Group. apply longest_first_map; [reflexivity|].
  apply decimal_longest.
Qed.

Lemma suffix_word (suf : str) :
  In suf suffixes -> Forall (fun c => cls_word U c = true) suf /\ suf <> [].
Proof.
  unfold suffixes. simpl. intros H.
  repeat (destruct H as [<-|H];
          [split; [repeat constructor | discriminate]|]).
  destruct H.
Qed.

(** Of two suffixes that end at a word boundary, the one that starts
    later also ends later: a suffix has no word boundary inside. *)
Lemma suffix_bound_dom (e e' j j' : nat) :
  e' <= e ->
  den (Seq (Group 2 suffix_re) Bound) e j ->
  den (Seq (Group 2 suffix_re) Bound) e' j' ->
  j' <= j.
Proof.
  intros Hle [m [H1 [B ->]]] [m' [H1' [B' ->]]].
  change (den suffix_re e m) in H1. change (den suffix_re e' m') in H1'.
  apply denotes_suffix in H1, H1'.
  destruct H1 as [suf [Hin [L ->]]]. destruct H1' as [suf' [Hin' [L' ->]]].
  destruct (le_lt_dec (e' + length suf') (e + length suf)) as [|Hgt];
    [assumption|]. exfalso.
  destruct (suffix_word suf Hin) as [_ Hne].
  assert (0 < length suf) by (destruct suf; simpl; [congruence|lia]).
  assert (W : forall k, e' <= k < e' + length suf' ->
                        word_at U text k = true).
  { intros k Hk. unfold word_at.
    replace k with (e' + (k - e')) by lia.
    rewrite (lit_at_nth text suf' e' (k - e') L') by lia.
    destruct (suffix_word suf' Hin') as [F _].
    rewrite Forall_forall in F.
    destruct (nth_error suf' (k - e')) as [c|] eqn:E.
    - apply F. eapply nth_error_In; eauto.
    - apply nth_error_None in E. lia. }
  unfold at_boundary in B.
  destruct (e + length suf) as [|q] eqn:Eq; [lia|].
  rewrite (W q), (W (S q)) in B by lia. discriminate.
Qed.

Lemma name_longest (st : mstate) : longest_first (ms (name_re U) st).
Proof.
  unfold name_re. rewrite matches_Group.
  apply longest_first_map; [reflexivity|].
  apply longest_first_seq_det; [apply det_Bound|]. intros [i gs].
  apply longest_first_plus_seq.
  - intros k. apply longest_first_semantic. simpl fst. intros j j' H H'.
    apply (suffix_bound_dom (i + k) (i + k)); auto.
  - intros k k' j j' Hk H H'.
    apply (suffix_bound_dom (i + k) (i + k')); auto. lia.
Qed.

(** *** The groups of a match *)

Lemma Group_head (g : nat) (r : regex) (i e : nat) gs gs' rest :
  ms (Group g r) (i, gs) = (e, gs') :: rest ->
  lookup_group g gs' = Some (i, e).
Proof.
  rewrite matches_Group.
  destruct (ms r (i, gs)) as [|[e0 g0] l]; simpl; [discriminate|].
  intros H. injection H as <- <- _. simpl. now rewrite Nat.eqb_refl.
Qed.

Lemma matches_Seq_in (r1 r2 : regex) (st st' : mstate) :
  In st' (ms (Seq r1 r2) st) ->
  exists st1, In st1 (ms r1 st) /\ In st' (ms r2 st1).
Proof. simpl. now rewrite in_flat_map. Qed.

Lemma matches_Lit_in (s : str) (st st' : mstate) :
  In st' (ms (Lit s) st) -> st' = (fst st + length s, snd st).
Proof.
  simpl. destruct (prefixb s (skipn (fst st) text)); simpl; [|tauto].
  intros [<-|[]]. reflexivity.
Qed.

Lemma matches_Cls_in (p : codepoint -> bool) (st st' : mstate) :
  In st' (ms (Cls p) st) -> st' = (S (fst st), snd st).
Proof.
  simpl. destruct (nth_error text (fst st)) as [c|]; simpl; [|tauto].
  destruct (p c); simpl; [|tauto]. intros [<-|[]]. reflexivity.
Qed.

Lemma matches_Group_in (g : nat) (r : regex) (st st' : mstate) :
  In st' (ms (Group g r) st) ->
  exists st0, In st0 (ms r st) /\
              st' = (fst st0, (g, (fst st, fst st0)) :: snd st0).
Proof.
  rewrite matches_Group, in_map_iff. intros [st0 [<- H]]. eauto.
Qed.

Lemma amount_group (i e : nat) gs gs' rest :
  ms (amount_re U) (i, gs) = (e, gs') :: rest ->
  lookup_group 1 gs' = Some (i + 9, e).
Proof.
  intros H.
  assert (Hin : In (e, gs') (ms (amount_re U) (i, gs)))
    by (rewrite H; now left).
  unfold amount_re in Hin.
  apply matches_Seq_in in Hin. destruct Hin as [st1 [H1 Hin]].
  apply matches_Lit_in in H1. subst st1.
  apply matches_Seq_in in Hin. destruct Hin as [st2 [H2 Hin]].
  apply matches_Cls_in in H2. subst st2.
  apply matches_Group_in in Hin. destruct Hin as [st0 [_ Heq]].
  injection Heq as -> ->. simpl. f_equal. f_equal. lia.
Qed.

(** *** [re.search] returns the first occurrence *)

Lemma search_first (r : regex) (occ : nat -> nat -> Prop) (i j : nat) :
  (forall i j, den r i j <-> occ i j) ->
  (forall i j, den r i j -> i < j) ->
  (forall st, longest_first (ms r st)) ->
  first_occ occ i j ->
  exists m,
    re_search U text r = Some m /\ m_start m = i /\ m_end m = j /\
    exists rest, ms r (i, []) = (j, m_groups m) :: rest.
Proof.
  intros Hocc NE L [O F].
  destruct (re_search_finds U text r i j NE (proj2 (Hocc i j) O)) as [m E].
  destruct (re_search_Some U text r m E) as [D [[rest Hr] Hleft]].
  pose proof (Hleft i j (proj2 (Hocc i j) O)) as Hs.
  destruct (F _ _ (proj1 (Hocc _ _) D)) as [Hlt|[Hi Hj]]; [lia|].
  assert (Hj' : j <= m_end m).
  { apply (head_longest U text r (m_start m) (m_end m) [] (m_groups m) rest
             (L _) Hr).
    rewrite Hi. now apply Hocc. }
  exists m. split; [assumption|]. split; [assumption|].
  split; [lia|]. exists rest. rewrite <- Hi.
  replace j with (m_end m) by lia. exact Hr.
Qed.
End PatternFacts.

(** ** Slices of the text and [float] *)

Lemma firstn_add (A : Type) (n m : nat) (l : list A) :
  firstn (n + m) l = firstn n l ++ firstn m (skipn n l).
Proof.
  revert l; induction n as [|n IH]; intros l; simpl.
  - reflexivity.
  - destruct l as [|a l]; simpl.
    + now rewrite firstn_nil.
    + now rewrite IH.
Qed.

Lemma slice_split (text : str) (a b c : nat) :
  a <= b <= c -> slice text a c = slice text a b ++ slice text b c.
Proof.
  intros H. unfold slice.
  replace (c - a) with ((b - a) + (c - b)) by lia.
  rewrite firstn_add, skipn_skipn.
  now replace (b - a + a) with b by lia.
Qed.

Lemma slice_all_in (text : str) (p : codepoint -> bool) (a b : nat) :
  all_in text p a b -> Forall (fun c => p c = true) (slice text a b).
Proof.
  intros H. apply Forall_forall. intros x Hx.
  apply In_nth_error in Hx. destruct Hx as [k Hk].
  unfold slice in Hk. rewrite nth_error_firstn in Hk.
  destruct (k <? b - a) eqn:E; [|discriminate].
  apply Nat.ltb_lt in E. rewrite nth_error_skipn_add in Hk.
  destruct (H (a + k)) as [c [Hc Hp]]; [lia|]. congruence.
Qed.

Lemma slice_length (text : str) (p : codepoint -> bool) (a b : nat) :
  all_in text p a b -> length (slice text a b) = b - a.
Proof.
  intros H. unfold slice. rewrite length_firstn, length_skipn.
  destruct (le_lt_dec b a) as [|Hlt]; [lia|].
  pose proof (all_in_bound text p a b H Hlt). lia.
Qed.

Lemma split_dot_app (ds rest : str) :
  Forall (fun c => c <> 46%N) ds ->
  split_dot (ds ++ 46%N :: rest) = Some (ds, rest).
Proof.
  induction 1 as [|c ds Hc _ IH]; simpl.
  - reflexivity.
  - apply N.eqb_neq in Hc. now rewrite Hc, IH.
Qed.

Section FloatFacts.
Variable U : ucd.

Lemma digit_not_dot (c : codepoint) : cls_digit U c = true -> c <> 46%N.
Proof. intros H ->. discriminate H. Qed.

Lemma digits_value_total (ds : str) :
  Forall (fun c => cls_digit U c = true) ds ->
  forall acc, exists m, digits_value U ds acc = Some m.
Proof.
  induction 1 as [|c ds Hc _ IH]; intros acc; simpl.
  - eauto.
  - unfold cls_digit in Hc.
    destruct (decimal_value U c) as [d|]; [apply IH|discriminate].
Qed.

(** [float] accepts every decimal the patterns can capture. *)
Lemma float_of_decimal (text : str) (a j : nat) :
  decimal_at U text a j ->
  exists f, float_of_str U (slice text a j) = Ok f.
Proof.
  intros [d [Hd [A1 [L [Hj A2]]]]].
  rewrite (slice_split text a d j) by lia.
  rewrite (slice_split text d (d + 1) j) by lia.
  change (slice text d (d + 1)) with (slice text d (d + length (lit ".")%string)).
  unfold lit_at in L. rewrite L.
  pose proof (slice_all_in _ _ _ _ A1) as F1.
  pose proof (slice_all_in _ _ _ _ A2) as F2.
  pose proof (slice_length _ _ _ _ A1) as L1.
  pose proof (slice_length _ _ _ _ A2) as L2.
  unfold float_of_str. change (lit "." ++ slice text (d + 1) j)
    with (46%N :: slice text (d + 1) j).
  rewrite split_dot_app
    by (eapply Forall_impl; [|exact F1]; apply digit_not_dot).
  destruct (digits_value_total (slice text a d ++ slice text (d + 1) j)
              (proj2 (Forall_app _ _ _) (conj F1 F2)) 0%N) as [m Hm].
  destruct (slice text a d) as [|c1 ip]; [simpl in L1; lia|].
  destruct (slice text (d + 1) j) as [|c2 fp]; [simpl in L2; lia|].
  rewrite Hm. eauto.
Qed.
End FloatFacts.

(** ** Deciding occurrences on a given text *)

Section Spans.
Variable U : ucd.
Variable text : str.
Variable r : regex.
Variable occ : nat -> nat -> Prop.
Hypothesis occ_denotes : forall i j, denotes U text r i j <-> occ i j.
Hypothesis nonempty : forall i j, denotes U text r i j -> i < j.

Lemma all_spans_spec (i j : nat) :
  In (i, j) (all_spans U text r) <-> occ i j.
Proof.
  rewrite <- occ_denotes. unfold all_spans. rewrite in_flat_map. split.
  - intros [i0 [_ Hin]]. apply in_map_iff in Hin.
    destruct Hin as [st [Heq Hst]]. injection Heq as -> <-.
    apply (matches_sound U text r (i, []) st Hst).
  - intros D. exists i. split.
    + apply in_seq. pose proof (nonempty i j D).
      pose proof (denotes_forward U text r i j D). lia.
    + destruct (matches_complete U text r i j [] D) as [gs Hin].
      apply in_map_iff. exists (j, gs). auto.
Qed.

Lemma is_span_true (i j : nat) (x : nat * nat) :
  is_span i j x = true <-> x = (i, j).
Proof.
  unfold is_span. destruct x as [a b]. simpl.
  rewrite andb_true_iff, !Nat.eqb_eq. split.
  - intros [-> ->]. reflexivity.
  - intros H. injection H as -> ->. auto.
Qed.

Lemma is_first_sound (i j : nat) :
  is_first (all_spans U text r) i j = true -> first_occ occ i j.
Proof.
  unfold is_first. rewrite andb_true_iff, existsb_exists, forallb_forall.
  intros [[x [Hx Hs]] Hall]. apply is_span_true in Hs. subst x. split.
  - now apply all_spans_spec.
  - intros i' j' O. apply all_spans_spec in O. specialize (Hall _ O).
    simpl in Hall.
    rewrite orb_true_iff, andb_true_iff, Nat.ltb_lt, Nat.eqb_eq,
      Nat.leb_le in Hall. tauto.
Qed.

Lemma is_only_sound (i j : nat) :
  is_only (all_spans U text r) i j = true -> only_occ occ i j.
Proof.
  unfold is_only. rewrite andb_true_iff, existsb_exists, forallb_forall.
  intros [[x [Hx Hs]] Hall]. apply is_span_true in Hs. subst x. split.
  - now apply all_spans_spec.
  - intros i' j' O. apply all_spans_spec in O. specialize (Hall _ O).
    apply is_span_true in Hall. injection Hall as -> ->. auto.
Qed.

Lemma no_spans_sound : all_spans U text r = [] -> no_occ occ.
Proof.
  intros E i j O. apply all_spans_spec in O. rewrite E in O. destruct O.
Qed.

Lemma only_occ_first (i j : nat) : only_occ occ i j -> first_occ occ i j.
Proof.
  intros [O H]. split; [assumption|].
  intros i' j' O'. destruct (H _ _ O') as [-> ->]. right. auto.
Qed.
End Spans.

(** ** The field extractor *)

Section Extraction.
Variable P : platform.
Local Abbreviation U := (unicode P).

Lemma extract_fields_first (t : str) (w : world)
      (i1 j1 i2 j2 i3 j3 i4 j4 : nat) :
  first_occ (date_at U t) i1 j1 ->
  first_occ (name_at U t) i2 j2 ->
  first_occ (dividend_at U t) i3 j3 ->
  first_occ (amount_at U t) i4 j4 ->
  exists f,
    float_of_str U (slice t (i4 + 9) j4) = Ok f /\
    fst (extract_fields P t w) =
      Ok (Some (VStr (slice t i1 j1), VStr (slice t i2 j2),
                VStr (slice t i3 j3), VFloat f)).
Proof.
  intros H1 H2 H3 H4.
  destruct (search_first U t (date_re U) _ i1 j1 (denotes_date U t)
              (date_nonempty U t) (date_longest U t) H1)
    as [dm [Ed [Sd [Fd _]]]].
  destruct (search_first U t (name_re U) _ i2 j2 (denotes_name U t)
              (name_nonempty U t) (name_longest U t) H2)
    as [nm [En [Sn [Fn _]]]].
  destruct (search_first U t (dividend_re U) _ i3 j3 (denotes_dividend U t)
              (dividend_nonempty U t) (dividend_longest U t) H3)
    as [vm [Ev [Sv [Fv [restv Rv]]]]].
  destruct (search_first U t (amount_re U) _ i4 j4 (denotes_amount U t)
              (amount_nonempty U t) (amount_longest U t) H4)
    as [am [Ea [Sa [Fa [resta Ra]]]]].
  apply Group_head in Rv. apply amount_group in Ra.
  destruct H4 as [[_ [_ Dec]] _].
  destruct (float_of_decimal U t (i4 + 9) j4 Dec) as [f Hf].
  exists f. split; [assumption|].
  unfold extract_fields. rewrite Ed, En, Ev, Ea.
  unfold group. rewrite Rv, Ra, Sd, Fd, Sn, Fn.
  unfold bind, lift, py_float. rewrite Hf. reflexivity.
Qed.

Lemma extract_fields_none (t : str) (w : world) :
  no_occ (date_at U t) \/ no_occ (name_at U t) \/
  no_occ (dividend_at U t) \/ no_occ (amount_at U t) ->
  extract_fields P t w = (Ok None, w).
Proof.
  intros H. unfold extract_fields.
  assert (E : re_search U t (date_re U) = None \/
              re_search U t (name_re U) = None \/
              re_search U t (dividend_re U) = None \/
              re_search U t (amount_re U) = None).
  { destruct H as [H|[H|[H|H]]].
    - left. apply re_search_None; [apply date_nonempty|].
      intros i j D. apply (H i j). now apply denotes_date.
    - right; left. apply re_search_None; [apply name_nonempty|].
      intros i j D. apply (H i j). now apply denotes_name.
    - right; right; left. apply re_search_None; [apply dividend_nonempty|].
      intros i j D. apply (H i j). now apply denotes_dividend.
    - right; right; right. apply re_search_None; [apply amount_nonempty|].
      intros i j D. apply (H i j). now apply denotes_amount. }
  destruct (re_search U t (date_re U)), (re_search U t (name_re U)),
    (re_search U t (dividend_re U)), (re_search U t (amount_re U));
    try reflexivity;
    destruct E as [E|[E|[E|E]]]; discriminate E.
Qed.
End Extraction.

(** ** Worlds *)

Lemma same_files_refl (w : world) : same_files w w.
Proof. unfold same_files. auto. Qed.

Lemma same_files_trans (w1 w2 w3 : world) :
  same_files w1 w2 -> same_files w2 w3 -> same_files w1 w3.
Proof. unfold same_files. intros [-> [-> ->]] [-> [-> ->]]. auto. Qed.

Lemma str_eqb_refl (s : str) : str_eqb s s = true.
Proof. unfold str_eqb. destruct (str_eq_dec s s); congruence. Qed.

Lemma str_eqb_eq (a b : str) : str_eqb a b = true <-> a = b.
Proof.
  unfold str_eqb. destruct (str_eq_dec a b); split; congruence.
Qed.

(** ** Worksheets *)

Lemma update_sheet_id (i : nat) (f : sheet -> sheet) (wb : workbook) :
  (forall s, f s = s) -> update_sheet i f wb = wb.
Proof.
  intros Hf. revert i; induction wb as [|s wb IH]; intros i; simpl.
  - reflexivity.
  - destruct i as [|i]; [now rewrite Hf | now rewrite IH].
Qed.

Lemma update_sheet_ext (i : nat) (f g : sheet -> sheet) (wb : workbook) :
  (forall s, f s = g s) -> update_sheet i f wb = update_sheet i g wb.
Proof.
  intros Hf. revert i; induction wb as [|s wb IH]; intros i; simpl.
  - reflexivity.
  - destruct i as [|i]; [now rewrite Hf | now rewrite IH].
Qed.

Lemma update_sheet_twice (i : nat) (f g : sheet -> sheet) (wb : workbook) :
  update_sheet i f (update_sheet i g wb) = update_sheet i (fun s => f (g s)) wb.
Proof.
  revert i; induction wb as [|s wb IH]; intros i; simpl.
  - reflexivity.
  - destruct i as [|i]; simpl; [reflexivity | now rewrite IH].
Qed.

Lemma nth_error_update_sheet (i k : nat) (f : sheet -> sheet) (wb : workbook) :
  nth_error (update_sheet i f wb) k =
  if k =? i then option_map f (nth_error wb k) else nth_error wb k.
Proof.
  revert i k; induction wb as [|s wb IH]; intros i k; simpl.
  - destruct (k =? i); [|reflexivity]. now destruct k.
  - destruct i as [|i]; destruct k as [|k]; simpl; try reflexivity.
    apply IH.
Qed.


Lemma find_sheet_None (name : str) (wb : workbook) :
  find_sheet name wb = None <-> forall s, In s wb -> title s <> name.
Proof.
  induction wb as [|s wb IH]; simpl.
  - split; [intros _ s []|reflexivity].
  - destruct (str_eqb (title s) name) eqn:E.
    + split; [discriminate|]. intros H. exfalso.
      apply (H s); [now left|]. now apply str_eqb_eq.
    + destruct (find_sheet name wb) as [j|]; simpl.
      * split; [discriminate|]. intros H.
        assert (N : Some j = None)
          by (apply IH; intros s' Hs'; apply H; now right).
        discriminate N.
      * split; [|reflexivity]. intros _ s' [<-|Hs'].
        -- intros Heq. apply str_eqb_eq in Heq. congruence.
        -- now apply IH.
Qed.

Lemma find_sheet_update (name : str) (i : nat) (f : sheet -> sheet)
      (wb : workbook) :
  (forall s, title (f s) = title s) ->
  find_sheet name (update_sheet i f wb) = find_sheet name wb.
Proof.
  intros Hf. revert i; induction wb as [|s wb IH]; intros i; simpl.
  - reflexivity.
  - destruct i as [|i]; simpl.
    + now rewrite Hf.
    + now rewrite IH.
Qed.

Lemma find_sheet_reread (P : platform) (name : str) (wb : workbook) :
  find_sheet name (map (reread_sheet P) wb) = find_sheet name wb.
Proof.
  induction wb as [|s wb IH]; simpl; [reflexivity|]. now rewrite IH.
Qed.

Lemma for_each_cons (A B : Type) (a : A) (l : list A) (acc : B)
      (body : B -> A -> M B) (w : world) :
  for_each (a :: l) acc body w =
  match body acc a w with
  | (Ok acc', w') => for_each l acc' body w'
  | (Raise e, w') => (Raise e, w')
  end.
Proof. reflexivity. Qed.

(** The calls of [sheet.append] in a row: all the rows, or the error of the
    first tuple that is not legal. *)
Lemma append_all (i : nat) (data : list record) (wb : workbook) (w : world) :
  for_each data wb (fun wb entry => lift (append i (entry_values entry) wb)) w
  = (if forallb legal data
     then Ok (update_sheet i (append_rows (map row_of data)) wb)
     else Raise IllegalCharacterError, w).
Proof.
  revert wb; induction data as [|entry data IH]; intros wb.
  - simpl. unfold ret. f_equal. f_equal. symmetry.
    apply update_sheet_id. intros [t rs].
    unfold append_rows. simpl. now rewrite app_nil_r.
  - rewrite for_each_cons. unfold lift at 1. unfold append at 1.
    fold (legal entry). simpl forallb.
    destruct (legal entry); [|reflexivity].
    rewrite IH. simpl andb.
    destruct (forallb legal data); [|reflexivity].
    f_equal. f_equal. rewrite update_sheet_twice.
    apply update_sheet_ext. intros [t rs].
    unfold append_rows, add_row, row_of. simpl. now rewrite <- app_assoc.
Qed.

Lemma header_row :
  append 0 header (update_sheet 0 (set_title (lit "Dividends")) Workbook)
  = Ok [{| title := lit "Dividends"; rows := [header] |}].
Proof. vm_compute. reflexivity. Qed.

(** ** The store appender *)

Section StoreFacts.
Variable P : platform.

Lemma update_excel_new (file_path : str) (data : list record) (w : world) :
  xlsx_at w file_path = None ->
  update_excel P file_path data w =
  if forallb legal data then
    save P [{| title := lit "Dividends"; rows := header :: map row_of data |}]
         file_path w
  else (Raise IllegalCharacterError, w).
Proof.
  intros H. unfold update_excel. cbv zeta. unfold bind at 1. unfold get.
  rewrite H. rewrite header_row.
  unfold bind. unfold lift at 1. unfold ret. cbv beta iota.
  rewrite append_all.
  destruct (forallb legal data); reflexivity.
Qed.

Lemma update_excel_existing (file_path : str) (data : list record)
      (w : world) (file : workbook) (i : nat) :
  xlsx_at w file_path = Some (Ok file) ->
  supported (separators P) file_path = true ->
  find_sheet (lit "Dividends") (map (reread_sheet P) file) = Some i ->
  update_excel P file_path data w =
  if forallb legal data then
    save P (update_sheet i (append_rows (map row_of data))
                         (map (reread_sheet P) file))
         file_path w
  else (Raise IllegalCharacterError, w).
Proof.
  intros H S F. unfold update_excel. unfold bind at 1. unfold get.
  rewrite H. unfold bind, load_workbook. rewrite S, H, F.
  unfold ret. cbv beta iota. rewrite append_all.
  destruct (forallb legal data); reflexivity.
Qed.

Lemma update_excel_no_sheet (file_path : str) (data : list record)
      (w : world) (file : workbook) :
  xlsx_at w file_path = Some (Ok file) ->
  supported (separators P) file_path = true ->
  find_sheet (lit "Dividends") (map (reread_sheet P) file) = None ->
  update_excel P file_path data w = (Raise KeyError, w).
Proof.
  intros H S F. unfold update_excel, bind, get, load_workbook.
  rewrite H, S, H, F. reflexivity.
Qed.

Lemma update_excel_not_loaded (file_path : str) (data : list record)
      (w : world) (e : exn) :
  xlsx_at w file_path = Some (Raise e) ->
  supported (separators P) file_path = true ->
  update_excel P file_path data w = (Raise e, w).
Proof.
  intros H S. unfold update_excel, bind, get, load_workbook.
  rewrite H, S, H. reflexivity.
Qed.

Lemma update_excel_refused (file_path : str) (data : list record)
      (w : world) (file : outcome workbook) :
  xlsx_at w file_path = Some file ->
  supported (separators P) file_path = false ->
  update_excel P file_path data w = (Raise InvalidFileException, w).
Proof.
  intros H S. unfold update_excel, bind, get, load_workbook.
  rewrite H, S. reflexivity.
Qed.

Lemma save_store (wb : workbook) (file_path : str) (w : world) :
  fst (save P wb file_path w) = Ok tt /\
  xlsx_at (snd (save P wb file_path w)) file_path = Some (Ok wb) /\
  stdout (snd (save P wb file_path w)) = stdout w /\
  forall p, p <> file_path ->
            xlsx_at (snd (save P wb file_path w)) p = xlsx_at w p /\
            pdf_at (snd (save P wb file_path w)) p = pdf_at w p.
Proof.
  unfold save. simpl. rewrite str_eqb_refl.
  split; [reflexivity|]. split; [reflexivity|]. split; [reflexivity|].
  intros p Hp. destruct (str_eqb p file_path) eqn:E; [|auto].
  apply str_eqb_eq in E. congruence.
Qed.


(** The appender reads nothing but the workbook at its path. *)
Lemma update_excel_ext (file_path : str) (data : list record)
      (w w' : world) :
  xlsx_at w file_path = xlsx_at w' file_path ->
  fst (update_excel P file_path data w) =
  fst (update_excel P file_path data w') /\
  xlsx_at (snd (update_excel P file_path data w)) file_path =
  xlsx_at (snd (update_excel P file_path data w')) file_path.
Proof.
  intros H.
  destruct (xlsx_at w' file_path) as [[file|e]|] eqn:E.
  - destruct (supported (separators P) file_path) eqn:S.
    + destruct (find_sheet (lit "Dividends") (map (reread_sheet P) file))
        as [i|] eqn:F.
      * rewrite (update_excel_existing _ _ w file i H S F),
          (update_excel_existing _ _ w' file i E S F).
        destruct (forallb legal data).
        -- unfold save. simpl. now rewrite str_eqb_refl.
        -- simpl. split; [reflexivity|congruence].
      * rewrite (update_excel_no_sheet _ _ w file H S F),
          (update_excel_no_sheet _ _ w' file E S F). simpl.
        split; [reflexivity|congruence].
    + rewrite (update_excel_refused _ _ w _ H S),
        (update_excel_refused _ _ w' _ E S). simpl.
      split; [reflexivity|congruence].
  - destruct (supported (separators P) file_path) eqn:S.
    + rewrite (update_excel_not_loaded _ _ w e H S),
        (update_excel_not_loaded _ _ w' e E S). simpl.
      split; [reflexivity|congruence].
    + rewrite (update_excel_refused _ _ w _ H S),
        (update_excel_refused _ _ w' _ E S). simpl.
      split; [reflexivity|congruence].
  - rewrite (update_excel_new _ _ w H), (update_excel_new _ _ w' E).
    destruct (forallb legal data).
    + unfold save. simpl. now rewrite str_eqb_refl.
    + simpl. split; [reflexivity|congruence].
Qed.

End StoreFacts.

(** ** The document reader and the driving loop *)

Section ReaderFacts.
Variable P : platform.
Local Abbreviation U := (unicode P).

(** With its prints going through, the extractor gives the same answer in
    every world and changes nothing but what is printed. *)
Lemma extract_fields_pure (t : str) :
  exists o, forall w,
    fst (extract_fields P t w) = Ok o /\
    same_files w (snd (extract_fields P t w)).
Proof.
  unfold extract_fields.
  destruct (re_search U t (date_re U)) as [dm|];
    [|exists None; intros w; split; [reflexivity|apply same_files_refl]].
  destruct (re_search U t (name_re U)) as [nm|];
    [|exists None; intros w; split; [reflexivity|apply same_files_refl]].
  destruct (re_search U t (dividend_re U)) as [vm|];
    [|exists None; intros w; split; [reflexivity|apply same_files_refl]].
  destruct (re_search U t (amount_re U)) as [am|] eqn:Ea;
    [|exists None; intros w; split; [reflexivity|apply same_files_refl]].
  destruct (re_search_Some U t _ am Ea) as [D [[rest Hr] _]].
  apply amount_group in Hr. apply denotes_amount in D.
  destruct D as [_ [_ Dec]].
  destruct (float_of_decimal U t _ _ Dec) as [f Hf].
  assert (G : group t am 1 = VStr (slice t (m_start am + 9) (m_end am)))
    by (unfold group; now rewrite Hr).
  exists (Some (group t dm 0, group t nm 0, group t vm 1, VFloat f)).
  intros w. rewrite G. unfold bind, lift, py_float. rewrite Hf. simpl.
  split; [reflexivity|]. unfold same_files. simpl. auto.
Qed.

Lemma extract_fields_files (t : str) (w : world) :
  same_files w (snd (extract_fields P t w)).
Proof. destruct (extract_fields_pure t) as [o H]. apply H. Qed.

Lemma extract_fields_any_world (t : str) (w w' : world) :
  fst (extract_fields P t w) = fst (extract_fields P t w').
Proof.
  destruct (extract_fields_pure t) as [o H].
  rewrite (proj1 (H w)), (proj1 (H w')). reflexivity.
Qed.

Lemma details_unreadable (pdf_path : str) (w : world) (e : exn) :
  pdf_at w pdf_path = Raise e ->
  extract_dividend_details P pdf_path w = (Raise e, w).
Proof.
  intros H. unfold extract_dividend_details, bind, read_pdf.
  now rewrite H.
Qed.

Lemma details_short (pdf_path : str) (w : world) (pages : list (outcome str)) :
  pdf_at w pdf_path = Ok pages ->
  length pages < 3 ->
  fst (extract_dividend_details P pdf_path w) = Ok None.
Proof.
  intros H L. unfold extract_dividend_details, bind, read_pdf.
  rewrite H. apply Nat.ltb_lt in L. rewrite L. reflexivity.
Qed.

Lemma details_page3 (pdf_path : str) (w : world)
      (pages : list (outcome str)) (page : outcome str) :
  pdf_at w pdf_path = Ok pages ->
  nth_error pages 2 = Some page ->
  extract_dividend_details P pdf_path w =
  (text <- lift page ;;
   print [VStr (lit "Text from page 3 of "); VStr pdf_path;
          VStr [58%N; 10%N]; VStr text; VStr [10%N]] ;;;
   extract_fields P text) w.
Proof.
  intros H N. unfold extract_dividend_details.
  unfold bind at 1. unfold read_pdf. rewrite H.
  assert (L : (length pages <? 3) = false).
  { apply Nat.ltb_ge.
    assert (2 < length pages) by (apply nth_error_Some; congruence). lia. }
  rewrite L, N. reflexivity.
Qed.

Lemma details_text (pdf_path : str) (w : world)
      (pages : list (outcome str)) (text : str) :
  pdf_at w pdf_path = Ok pages ->
  nth_error pages 2 = Some (Ok text) ->
  fst (extract_dividend_details P pdf_path w) =
  fst (extract_fields P text w).
Proof.
  intros H N. rewrite (details_page3 _ _ _ _ H N).
  unfold bind, lift, print. apply extract_fields_any_world.
Qed.

Lemma details_files (pdf_path : str) (w : world) :
  same_files w (snd (extract_dividend_details P pdf_path w)).
Proof.
  destruct (pdf_at w pdf_path) as [pages|e] eqn:H.
  - destruct (nth_error pages 2) as [page|] eqn:N.
    + rewrite (details_page3 _ _ _ _ H N).
      unfold bind, lift. destruct page as [text|e]; simpl.
      * eapply same_files_trans; [|apply extract_fields_files].
        unfold same_files. simpl. auto.
      * apply same_files_refl.
    + unfold extract_dividend_details, bind, read_pdf. rewrite H.
      assert (L : (length pages <? 3) = true).
      { apply Nat.ltb_lt. apply nth_error_None in N. lia. }
      rewrite L. simpl. unfold same_files. simpl. auto.
  - rewrite (details_unreadable _ _ _ H). apply same_files_refl.
Qed.

(** The reader depends on the world through the document alone. *)
Lemma details_any_world (pdf_path : str) (w w' : world) :
  pdf_at w pdf_path = pdf_at w' pdf_path ->
  fst (extract_dividend_details P pdf_path w) =
  fst (extract_dividend_details P pdf_path w').
Proof.
  intros E. destruct (pdf_at w' pdf_path) as [pages|e] eqn:H.
  - destruct (nth_error pages 2) as [page|] eqn:N.
    + rewrite (details_page3 _ _ _ _ E N), (details_page3 _ _ _ _ H N).
      unfold bind, lift. destruct page as [text|e]; simpl; [|reflexivity].
      apply extract_fields_any_world.
    + assert (L : length pages < 3) by (apply nth_error_None in N; lia).
      now rewrite (details_short _ _ _ E L), (details_short _ _ _ H L).
  - now rewrite (details_unreadable _ _ _ E), (details_unreadable _ _ _ H).
Qed.

(** *** The loop *)

Lemma loop_pure_ext (d : str) (w w' : world) (names : list str) :
  pdf_at w = pdf_at w' ->
  forall acc, loop_pure P d w names acc = loop_pure P d w' names acc.
Proof.
  intros E. induction names as [|f names IH]; intros acc; simpl.
  - reflexivity.
  - destruct (endswith f (lit ".pdf")); [|apply IH].
    rewrite (details_any_world _ w w') by now rewrite E.
    destruct (fst (extract_dividend_details P (path_join P d f) w'))
      as [[r|]|e]; auto.
Qed.

Lemma loop_body_spec (d : str) (w : world) (acc : list record) (f : str)
      (w0 : world) :
  same_files w w0 ->
  exists w1,
    same_files w w1 /\
    loop_body P d acc f w0 =
    (if endswith f (lit ".pdf") then
       match fst (extract_dividend_details P (path_join P d f) w) with
       | Ok (Some r) => Ok (acc ++ [r])
       | Ok None => Ok acc
       | Raise e => Raise e
       end
     else Ok acc, w1).
Proof.
  intros S. unfold loop_body.
  destruct (endswith f (lit ".pdf")); [|exists w0; auto].
  pose proof (details_files (path_join P d f) w0) as S1.
  assert (E : fst (extract_dividend_details P (path_join P d f) w) =
              fst (extract_dividend_details P (path_join P d f) w0))
    by (apply details_any_world; destruct S as [_ [-> _]]; reflexivity).
  rewrite E. unfold bind.
  destruct (extract_dividend_details P (path_join P d f) w0)
    as [[[r|]|e] w1]; simpl in *;
    exists w1; (split; [eapply same_files_trans; eauto|reflexivity]).
Qed.

Lemma loop_spec (d : str) (w : world) (names : list str) :
  forall acc w0,
    same_files w w0 ->
    fst (for_each names acc (loop_body P d) w0) = loop_pure P d w names acc /\
    same_files w (snd (for_each names acc (loop_body P d) w0)).
Proof.
  induction names as [|f names IH]; intros acc w0 S.
  - simpl. auto.
  - rewrite for_each_cons.
    destruct (loop_body_spec d w acc f w0 S) as [w1 [S1 ->]].
    simpl loop_pure.
    destruct (endswith f (lit ".pdf")); [|now apply IH].
    destruct (fst (extract_dividend_details P (path_join P d f) w))
      as [[r|]|e]; [now apply IH | now apply IH | simpl; auto].
Qed.

(** The whole run: the listing, the loop, one call of the appender. *)
Lemma process_spec (d e : str) (w : world) (names : list str) :
  listdir w d = Ok names ->
  exists w',
    same_files w w' /\
    process_pdfs P d e w =
    match loop_pure P d w names [] with
    | Ok data => update_excel P e data w'
    | Raise ex => (Raise ex, w')
    end.
Proof.
  intros H. unfold process_pdfs, bind at 1. unfold os_listdir. rewrite H.
  destruct (loop_spec d w names [] w (same_files_refl w)) as [L S].
  exists (snd (for_each names [] (loop_body P d) w)). split; [assumption|].
  unfold bind. rewrite <- L.
  destruct (for_each names [] (loop_body P d) w) as [[data|ex] w']; reflexivity.
Qed.

Lemma process_no_listing (d e : str) (w : world) (ex : exn) :
  listdir w d = Raise ex -> process_pdfs P d e w = (Raise ex, w).
Proof.
  intros H. unfold process_pdfs, bind, os_listdir. now rewrite H.
Qed.

(** A document that yields nothing can be left out of the listing. *)
Lemma loop_pure_skip (d : str) (w : world) (l1 l2 : list str) (f : str) :
  (endswith f (lit ".pdf") = true ->
   fst (extract_dividend_details P (path_join P d f) w) = Ok None) ->
  forall acc,
    loop_pure P d w (l1 ++ f :: l2) acc = loop_pure P d w (l1 ++ l2) acc.
Proof.
  intros Hf. induction l1 as [|g l1 IH]; intros acc; simpl.
  - destruct (endswith f (lit ".pdf")); [|reflexivity].
    now rewrite Hf.
  - destruct (endswith g (lit ".pdf")); [|apply IH].
    destruct (fst (extract_dividend_details P (path_join P d g) w))
      as [[r|]|ex]; auto.
Qed.

(** It runs to the end when no document raises. *)
Lemma loop_pure_ok (d : str) (w : world) (names : list str) :
  (forall g, In g names -> endswith g (lit ".pdf") = true ->
             exists o, fst (extract_dividend_details P (path_join P d g) w)
                       = Ok o) ->
  forall acc, exists data, loop_pure P d w names acc = Ok data.
Proof.
  induction names as [|g names IH]; intros H acc; simpl.
  - eauto.
  - assert (H' : forall g', In g' names -> endswith g' (lit ".pdf") = true ->
                 exists o, fst (extract_dividend_details P
                                  (path_join P d g') w) = Ok o)
      by (intros g' Hg'; apply H; now right).
    destruct (endswith g (lit ".pdf")) eqn:Eg; [|now apply IH].
    destruct (H g (or_introl eq_refl) Eg) as [o Ho]. rewrite Ho.
    destruct o; now apply IH.
Qed.

(** It collects nothing when every document is skipped. *)
Lemma loop_pure_nothing (d : str) (w : world) (names : list str) :
  (forall g, In g names ->
             endswith g (lit ".pdf") = false \/
             fst (extract_dividend_details P (path_join P d g) w) = Ok None) ->
  forall acc, loop_pure P d w names acc = Ok acc.
Proof.
  induction names as [|g names IH]; intros H acc; simpl.
  - reflexivity.
  - assert (H' : forall g', In g' names ->
                 endswith g' (lit ".pdf") = false \/
                 fst (extract_dividend_details P (path_join P d g') w)
                 = Ok None)
      by (intros g' Hg'; apply H; now right).
    destruct (H g (or_introl eq_refl)) as [Eg|Eg].
    + rewrite Eg. now apply IH.
    + rewrite Eg. destruct (endswith g (lit ".pdf")); now apply IH.
Qed.
End ReaderFacts.

(** ** Runs that succeed *)

Section RunFacts.
Variable P : platform.
Local Abbreviation U := (unicode P).

(** A record the extractor returns is made of the four matches. *)
Lemma extract_fields_result (t : str) (w : world) (entry : record) :
  fst (extract_fields P t w) = Ok (Some entry) ->
  exists dm nm vm am f,
    re_search U t (date_re U) = Some dm /\
    re_search U t (name_re U) = Some nm /\
    re_search U t (dividend_re U) = Some vm /\
    re_search U t (amount_re U) = Some am /\
    float_of_str U (slice t (m_start am + 9) (m_end am)) = Ok f /\
    entry = (VStr (slice t (m_start dm) (m_end dm)),
             VStr (slice t (m_start nm) (m_end nm)),
             VStr (slice t (m_start vm) (m_end vm)),
             VFloat f).
Proof.
  unfold extract_fields.
  destruct (re_search U t (date_re U)) as [dm|]; [|discriminate].
  destruct (re_search U t (name_re U)) as [nm|]; [|discriminate].
  destruct (re_search U t (dividend_re U)) as [vm|] eqn:Ev; [|discriminate].
  destruct (re_search U t (amount_re U)) as [am|] eqn:Ea; [|discriminate].
  destruct (re_search_Some U t _ am Ea) as [D [[rest Hr] _]].
  destruct (re_search_Some U t _ vm Ev) as [_ [[restv Hv] _]].
  apply amount_group in Hr. apply Group_head in Hv.
  apply denotes_amount in D. destruct D as [_ [_ Dec]].
  destruct (float_of_decimal U t _ _ Dec) as [f Hf].
  assert (G : group t am 1 = VStr (slice t (m_start am + 9) (m_end am)))
    by (unfold group; now rewrite Hr).
  assert (Gv : group t vm 1 = VStr (slice t (m_start vm) (m_end vm)))
    by (unfold group; now rewrite Hv).
  rewrite G, Gv. unfold bind, lift, py_float. rewrite Hf. simpl.
  intros H. injection H as <-.
  exists dm, nm, vm, am, f. auto 10.
Qed.

Lemma run_ok_inv (d e : str) (w w1 : world) :
  process_pdfs P d e w = (Ok tt, w1) ->
  exists names data w',
    listdir w d = Ok names /\
    loop_pure P d w names [] = Ok data /\
    same_files w w' /\
    update_excel P e data w' = (Ok tt, w1).
Proof.
  intros H. destruct (listdir w d) as [names|ex] eqn:Hl.
  - destruct (process_spec P d e w names Hl) as [w' [S E]].
    rewrite E in H.
    destruct (loop_pure P d w names []) as [data|ex] eqn:L; [|discriminate].
    exists names, data, w'.
    split; [reflexivity|]. split; [assumption|]. split; assumption.
  - rewrite (process_no_listing P d e w ex Hl) in H. discriminate.
Qed.
End RunFacts.

(** ** The loop, a part at a time *)

Lemma for_each_app (A B : Type) (l1 l2 : list A) (body : B -> A -> M B) :
  forall acc w,
    for_each (l1 ++ l2) acc body w =
    match for_each l1 acc body w with
    | (Ok acc', w') => for_each l2 acc' body w'
    | (Raise e, w') => (Raise e, w')
    end.
Proof.
  induction l1 as [|a l1 IH]; intros acc w.
  - reflexivity.
  - simpl app. rewrite !for_each_cons.
    destruct (body acc a w) as [[acc'|e] w']; [apply IH|reflexivity].
Qed.

Section SourceFacts.
Variable P : platform.



(** A workbook that [load_workbook] returns comes from a file with a
    supported name. *)
Lemma load_ok_inv (path : str) (w : world) (wb : workbook) :
  fst (load_workbook P path w) = Ok wb ->
  supported (separators P) path = true /\
  exists file,
    xlsx_at w path = Some (Ok file) /\ wb = map (reread_sheet P) file.
Proof.
  unfold load_workbook.
  destruct (supported (separators P) path); [|discriminate].
  destruct (xlsx_at w path) as [[file|e]|]; try discriminate.
  simpl. intros H. injection H as <-. eauto.
Qed.
End SourceFacts.

(** ** The sign of a parsed amount *)

Lemma shr_1_nonneg (mrs : shr_record) :
  (0 <= shr_m mrs)%Z -> (0 <= shr_m (shr_1 mrs))%Z.
Proof.
  destruct mrs as [m r s]. simpl.
  destruct m as [|[p|p|]|p]; simpl; lia.
Qed.

Lemma iter_shr_1_nonneg (p : positive) (mrs : shr_record) :
  (0 <= shr_m mrs)%Z -> (0 <= shr_m (iter_pos shr_1 p mrs))%Z.
Proof.
  revert mrs; induction p as [p IH|p IH|]; intros mrs H; simpl.
  - apply IH, IH, shr_1_nonneg, H.
  - apply IH, IH, H.
  - apply shr_1_nonneg, H.
Qed.

Lemma shr_fexp_nonneg (m e : Z) (l : location) :
  (0 <= m)%Z -> (0 <= shr_m (fst (shr_fexp prec emax m e l)))%Z.
Proof.
  intros H. unfold shr_fexp, shr.
  assert (H0 : (0 <= shr_m (shr_record_of_loc m l))%Z)
    by (destruct l as [|[| |]]; exact H).
  destruct (fexp prec emax (Zdigits2 m + e) - e)%Z; simpl;
    [assumption | now apply iter_shr_1_nonneg | assumption].
Qed.

Lemma round_nearest_even_nonneg (m : Z) (l : location) :
  (0 <= m)%Z -> (0 <= round_nearest_even m l)%Z.
Proof.
  intros H. destruct l as [|[| |]]; simpl; try lia.
  destruct (Z.even m); lia.
Qed.

Lemma binary_round_aux_nonneg (m e : Z) (l : location) :
  (0 <= m)%Z -> is_nonneg (binary_round_aux prec emax false m e l) = true.
Proof.
  intros H. unfold binary_round_aux.
  pose proof (shr_fexp_nonneg m e l H) as H1.
  destruct (shr_fexp prec emax m e l) as [mrs' e']. simpl in H1.
  pose proof (shr_fexp_nonneg
                (round_nearest_even (shr_m mrs') (loc_of_shr_record mrs'))
                e' loc_Exact (round_nearest_even_nonneg _ _ H1)) as H2.
  destruct (shr_fexp prec emax _ e' loc_Exact) as [mrs'' e'']. simpl in H2.
  destruct (shr_m mrs'') as [|q|q]; [reflexivity| |lia].
  destruct (e'' <=? emax - prec)%Z; reflexivity.
Qed.

Lemma decimal_to_float_nonneg (m : N) (k : nat) :
  is_nonneg (decimal_to_float m k) = true.
Proof.
  unfold decimal_to_float. destruct m as [|p]; [reflexivity|].
  unfold SFdiv, SFdiv_core_binary. simpl xorb.
  set (m2 := Z.pos (Z.to_pos (10 ^ Z.of_nat k))).
  set (e' := Z.min _ _).
  set (m' := match (0 - 0 - e')%Z with
             | Z0 => Z.pos p
             | Z.pos _ => Z.shiftl (Z.pos p) (0 - 0 - e')
             | Z.neg _ => 0%Z
             end).
  assert (Hm' : (0 <= m')%Z).
  { unfold m'. destruct (0 - 0 - e')%Z; try lia.
    apply Z.shiftl_nonneg. lia. }
  pose proof (Z_div_mod m' m2 ltac:(unfold m2; lia)) as Hd.
  destruct (Z.div_eucl m' m2) as [q r].
  apply binary_round_aux_nonneg.
  destruct Hd as [Hq Hr]. unfold m2 in *. nia.
Qed.

Lemma float_of_str_nonneg (U : ucd) (s : str) (f : spec_float) :
  float_of_str U s = Ok f -> is_nonneg f = true.
Proof.
  unfold float_of_str.
  destruct (split_dot s) as [[ip fp]|]; [|discriminate].
  destruct ip as [|c1 ip]; [discriminate|].
  destruct fp as [|c2 fp]; [discriminate|].
  destruct (digits_value U _ 0) as [m|]; [|discriminate].
  intros H. injection H as <-. apply decimal_to_float_nonneg.
Qed.

(** ** Numbers read back *)

Lemma reread_float_number (f : spec_float) (s : str) :
  reread_float f <> VStr s.
Proof.
  unfold reread_float. destruct f as [sg|sg| |sg m e]; try discriminate.
  destruct (sixteen_digits _ _) as [d x].
  destruct (_ && _); discriminate.
Qed.

Lemma reread_float_none (f : spec_float) :
  is_nonneg f = true ->
  (reread_float f = VNone <-> f = S754_infinity false).
Proof.
  unfold reread_float.
  destruct f as [sg|sg| |sg m e]; try destruct sg; try discriminate;
    intros _.
  - split; discriminate.
  - split; reflexivity.
  - destruct (sixteen_digits _ _) as [d x].
    destruct (_ && _); split; discriminate.
Qed.

(** * The claims *)

(** C1.  On a page text on which each of the four patterns (a date of two
    digits, three letters and two digits; an issuer name that ends in one
    of the corporate suffixes; a dividend detail integer[@]decimal; the
    token [Dividend], whitespace and a decimal) occurs exactly once, the
    field extractor returns a record whose fields are those occurrences,
    the amount being the float parsed from the decimal; and when a pattern
    occurs several times the field is its first occurrence, scanning the
    text from its start. *)
Theorem C1_fields_are_the_first_matches
        (P : platform) (t : str) (w : world)
        (i1 j1 i2 j2 i3 j3 i4 j4 : nat) :
  (only_occ (date_at (unicode P) t) i1 j1 ->
   only_occ (name_at (unicode P) t) i2 j2 ->
   only_occ (dividend_at (unicode P) t) i3 j3 ->
   only_occ (amount_at (unicode P) t) i4 j4 ->
   exists f,
     float_of_str (unicode P) (slice t (i4 + 9) j4) = Ok f /\
     fst (extract_fields P t w) =
       Ok (Some (VStr (slice t i1 j1), VStr (slice t i2 j2),
                 VStr (slice t i3 j3), VFloat f)))
  /\
  (first_occ (date_at (unicode P) t) i1 j1 ->
   first_occ (name_at (unicode P) t) i2 j2 ->
   first_occ (dividend_at (unicode P) t) i3 j3 ->
   first_occ (amount_at (unicode P) t) i4 j4 ->
   exists f,
     float_of_str (unicode P) (slice t (i4 + 9) j4) = Ok f /\
     fst (extract_fields P t w) =
       Ok (Some (VStr (slice t i1 j1), VStr (slice t i2 j2),
                 VStr (slice t i3 j3), VFloat f))).
Proof.
  split.
  - intros H1 H2 H3 H4.
    apply extract_fields_first; now apply only_occ_first.
  - apply extract_fields_first.
Qed.

Lemma C1_fields_witness :
  fst (extract_fields posix terse_text empty_world) =
    Ok (Some (VStr (lit "01Jan24"), VStr (lit "ACo"),
              VStr (lit "5@0.2"), VFloat float_1_5)) /\
  fst (extract_fields posix statement_text empty_world) =
    Ok (Some (VStr (lit "15Mar24"), VStr (lit " Acme Corp"),
              VStr (lit "500@0.25"), VFloat float_123_45)).
Proof.
  split.
  - destruct (proj1 (C1_fields_are_the_first_matches
                       posix terse_text empty_world 0 7 8 11 12 17 18 30))
      as [f [Hf E]].
    + apply (is_only_sound _ _ _ _ (denotes_date _ _) (date_nonempty _ _)).
      vm_compute. reflexivity.
    + apply (is_only_sound _ _ _ _ (denotes_name _ _) (name_nonempty _ _)).
      vm_compute. reflexivity.
    + apply (is_only_sound _ _ _ _ (denotes_dividend _ _)
               (dividend_nonempty _ _)).
      vm_compute. reflexivity.
    + apply (is_only_sound _ _ _ _ (denotes_amount _ _) (amount_nonempty _ _)).
      vm_compute. reflexivity.
    + vm_compute in Hf. injection Hf as <-. exact E.
  - destruct (proj2 (C1_fields_are_the_first_matches
                       posix statement_text empty_world 0 7 7 17 18 26 27 42))
      as [f [Hf E]].
    + apply (is_first_sound _ _ _ _ (denotes_date _ _) (date_nonempty _ _)).
      vm_compute. reflexivity.
    + apply (is_first_sound _ _ _ _ (denotes_name _ _) (name_nonempty _ _)).
      vm_compute. reflexivity.
    + apply (is_first_sound _ _ _ _ (denotes_dividend _ _)
               (dividend_nonempty _ _)).
      vm_compute. reflexivity.
    + apply (is_first_sound _ _ _ _ (denotes_amount _ _) (amount_nonempty _ _)).
      vm_compute. reflexivity.
    + vm_compute in Hf. injection Hf as <-. exact E.
Defined.

(** C2.  On a page text on which at least one of the four patterns (date,
    issuer name, dividend detail, amount) does not occur, the field
    extractor returns no record ([None]), whichever field is the missing
    one; so does the reader on a document whose third page has that
    text. *)
Theorem C2_missing_field_gives_no_record
        (P : platform) (t : str) (w : world) :
  no_occ (date_at (unicode P) t) \/
  no_occ (name_at (unicode P) t) \/
  no_occ (dividend_at (unicode P) t) \/
  no_occ (amount_at (unicode P) t) ->
  extract_fields P t w = (Ok None, w) /\
  forall pdf_path pages,
    pdf_at w pdf_path = Ok pages ->
    nth_error pages 2 = Some (Ok t) ->
    fst (extract_dividend_details P pdf_path w) = Ok None.
Proof.
  intros H. split.
  - now apply extract_fields_none.
  - intros pdf_path pages Hp Hn.
    rewrite (details_text P _ _ _ _ Hp Hn).
    now rewrite extract_fields_none.
Qed.

Lemma C2_missing_field_witness :
  extract_fields posix no_date_text empty_world = (Ok None, empty_world) /\
  extract_fields posix no_name_text empty_world = (Ok None, empty_world) /\
  extract_fields posix no_dividend_text empty_world = (Ok None, empty_world) /\
  extract_fields posix no_amount_text empty_world = (Ok None, empty_world).
Proof.
  split; [|split; [|split]].
  - apply (C2_missing_field_gives_no_record posix no_date_text empty_world).
    left.
    apply (no_spans_sound _ _ _ _ (denotes_date _ _) (date_nonempty _ _)).
    vm_compute. reflexivity.
  - apply (C2_missing_field_gives_no_record posix no_name_text empty_world).
    right; left.
    apply (no_spans_sound _ _ _ _ (denotes_name _ _) (name_nonempty _ _)).
    vm_compute. reflexivity.
  - apply (C2_missing_field_gives_no_record posix no_dividend_text empty_world).
    right; right; left.
    apply (no_spans_sound _ _ _ _ (denotes_dividend _ _)
             (dividend_nonempty _ _)).
    vm_compute. reflexivity.
  - apply (C2_missing_field_gives_no_record posix no_amount_text empty_world).
    right; right; right.
    apply (no_spans_sound _ _ _ _ (denotes_amount _ _) (amount_nonempty _ _)).
    vm_compute. reflexivity.
Defined.

(** C3.  A document with fewer than three pages yields no record: the
    reader returns [None], and the run ends as it would without the
    document, with the same rows in the store.  On a document with at least
    three pages the reader goes on with the text extracted from the page of
    index 2, the third page. *)
Theorem C3_reader_wants_three_pages
        (P : platform) (w : world) (pdf_path : str)
        (pages : list (outcome str)) :
  pdf_at w pdf_path = Ok pages ->
  (length pages < 3 ->
   fst (extract_dividend_details P pdf_path w) = Ok None /\
   forall d e f l1 l2 w',
     pdf_path = path_join P d f ->
     listdir w d = Ok (l1 ++ f :: l2) ->
     listdir w' d = Ok (l1 ++ l2) ->
     pdf_at w' = pdf_at w ->
     xlsx_at w' e = xlsx_at w e ->
     fst (process_pdfs P d e w) = fst (process_pdfs P d e w') /\
     xlsx_at (snd (process_pdfs P d e w)) e =
     xlsx_at (snd (process_pdfs P d e w')) e)
  /\
  (3 <= length pages ->
   exists page,
     nth_error pages 2 = Some page /\
     extract_dividend_details P pdf_path w =
     (text <- lift page ;;
      print [VStr (lit "Text from page 3 of "); VStr pdf_path;
             VStr [58%N; 10%N]; VStr text; VStr [10%N]] ;;;
      extract_fields P text) w).
Proof.
  intros Hp. split.
  - intros L. pose proof (details_short P _ _ _ Hp L) as Hn.
    split; [assumption|].
    intros d e f l1 l2 w' -> Hl Hl' Epdf Exl.
    destruct (process_spec P d e w _ Hl) as [w1 [S1 E1]].
    destruct (process_spec P d e w' _ Hl') as [w1' [S1' E1']].
    rewrite E1, E1'.
    rewrite (loop_pure_ext P d w' w (l1 ++ l2) Epdf).
    rewrite (loop_pure_skip P d w l1 l2 f (fun _ => Hn)).
    assert (X : xlsx_at w1 e = xlsx_at w1' e).
    { destruct S1 as [_ [_ <-]]. destruct S1' as [_ [_ <-]]. now rewrite Exl. }
    destruct (loop_pure P d w (l1 ++ l2) []) as [data|ex].
    + now apply update_excel_ext.
    + simpl. auto.
  - intros L.
    destruct (nth_error pages 2) as [page|] eqn:N.
    + exists page. split; [reflexivity|]. now apply (details_page3 P _ _ pages).
    + apply nth_error_None in N. lia.
Qed.

Lemma C3_reader_witness :
  (fst (extract_dividend_details posix (lit "dir/short.pdf") sample_world)
   = Ok None /\
   xlsx_at (snd (process_pdfs posix (lit "dir") (lit "out.xlsx") sample_world))
           (lit "out.xlsx") =
   xlsx_at (snd (process_pdfs posix (lit "dir") (lit "out.xlsx")
                   sample_world_less))
           (lit "out.xlsx")) /\
  fst (extract_dividend_details posix (lit "dir/a.pdf") sample_world) =
  fst (extract_fields posix statement_text sample_world).
Proof.
  split.
  - destruct (C3_reader_wants_three_pages
                posix sample_world (lit "dir/short.pdf") short_pdf eq_refl)
      as [Short _].
    destruct Short as [Hn Hrun]; [simpl; lia|].
    split; [exact Hn|].
    apply (Hrun (lit "dir") (lit "out.xlsx") (lit "short.pdf")
                [lit "a.pdf"] [lit "notes.txt"; lit "b.pdf"]
                sample_world_less); reflexivity.
  - destruct (C3_reader_wants_three_pages
                posix sample_world (lit "dir/a.pdf") statement_pdf eq_refl)
      as [_ Long].
    destruct Long as [page [Hpage E]]; [simpl; lia|].
    rewrite E. simpl in Hpage. injection Hpage as <-.
    unfold bind, lift, print. apply extract_fields_any_world.
Defined.

(** C4, as the script has it.  An unreadable document is not skipped: the
    exception it raises ends the loop and the run.  The run stops in the
    state that the documents listed before it left behind: no document
    listed after it is read, nothing more is printed and nothing is saved,
    so every file is as it was. *)
Theorem C4_unreadable_document_ends_the_run
        (P : platform) (w w1 : world) (d e : str) (l1 l2 : list str)
        (f : str) (ex : exn) (data : list record) :
  listdir w d = Ok (l1 ++ f :: l2) ->
  for_each l1 [] (loop_body P d) w = (Ok data, w1) ->
  endswith f (lit ".pdf") = true ->
  unreadable w (path_join P d f) ex ->
  process_pdfs P d e w = (Raise ex, w1) /\
  same_files w w1.
Proof.
  intros Hl Hloop Ef Un.
  destruct (loop_spec P d w l1 [] w (same_files_refl w)) as [_ S].
  rewrite Hloop in S. simpl in S.
  split; [|assumption].
  assert (Hr : extract_dividend_details P (path_join P d f) w1
               = (Raise ex, w1)).
  { destruct S as [_ [Sp _]].
    destruct Un as [Hp|[pages [Hp Hn]]].
    - apply details_unreadable. now rewrite <- Sp.
    - rewrite (details_page3 P _ _ pages (Raise ex));
        [reflexivity | now rewrite <- Sp | assumption]. }
  unfold process_pdfs. unfold bind at 1. unfold os_listdir. rewrite Hl.
  unfold bind at 1. rewrite for_each_app, Hloop, for_each_cons.
  unfold loop_body at 1. rewrite Ef. unfold bind at 1. rewrite Hr.
  reflexivity.
Qed.

Lemma C4_unreadable_witness :
  exists w1,
    process_pdfs posix (lit "dir") (lit "out.xlsx") halting_world
    = (Raise PdfReadError, w1) /\
    stdout w1 =
    [[VStr (lit "Text from page 3 of "); VStr (lit "dir/a.pdf");
      VStr [58%N; 10%N]; VStr statement_text; VStr [10%N]];
     [VStr (lit "Extracted details - Date: "); VStr (lit "15Mar24");
      VStr (lit ", Name: "); VStr (lit " Acme Corp");
      VStr (lit ", Dividend Details: "); VStr (lit "500@0.25");
      VStr (lit ", Amount: "); VFloat float_123_45; VStr [10%N]]] /\
    xlsx_at w1 = xlsx_at halting_world.
Proof.
  exists (snd (for_each [lit "a.pdf"] [] (loop_body posix (lit "dir"))
                 halting_world)).
  destruct (C4_unreadable_document_ends_the_run
              posix halting_world
              (snd (for_each [lit "a.pdf"] [] (loop_body posix (lit "dir"))
                      halting_world))
              (lit "dir") (lit "out.xlsx")
              [lit "a.pdf"] [lit "b.pdf"] (lit "bad.pdf") PdfReadError
              [(VStr (lit "15Mar24"), VStr (lit " Acme Corp"),
                VStr (lit "500@0.25"), VFloat float_123_45)])
    as [Hrun [_ [_ Hx]]].
  - reflexivity.
  - vm_compute. reflexivity.
  - reflexivity.
  - left. reflexivity.
  - split; [exact Hrun|]. split; [vm_compute; reflexivity|].
    symmetry. exact Hx.
Defined.

(** The statement C4 makes of the script fails: with an unreadable document
    first in the directory the run raises, the readable document after it
    is never opened (nothing at all is printed) and no workbook is saved. *)
Lemma C4_unreadable_document_is_not_skipped :
  (fst (process_pdfs posix (lit "dir") (lit "out.xlsx") broken_world)
   = Raise PdfReadError /\
   xlsx_at (snd (process_pdfs posix (lit "dir") (lit "out.xlsx") broken_world))
           (lit "out.xlsx") = None /\
   stdout (snd (process_pdfs posix (lit "dir") (lit "out.xlsx") broken_world))
   = []) /\
  ~ failures_are_local posix.
Proof.
  split; [vm_compute; auto|].
  intros H.
  destruct (H broken_world (lit "dir") (lit "out.xlsx") _ eq_refl eq_refl)
    as [w' [wb [E _]]].
  apply (f_equal fst) in E. vm_compute in E. discriminate E.
Qed.

(** C5, as the script has it.  When the destination file does not exist
    and every cell of every record is accepted by openpyxl, the store
    appender creates the file: it holds one sheet, called "Dividends",
    whose first row is [Date, Name, Dividend Details, Amount] and whose
    other rows are the records, one row each, in input order, a row being
    the four values of the record with no more than 32767 characters of a
    string.  When a record holds a string with a control character that
    openpyxl refuses, the appender raises [IllegalCharacterError] and
    creates no file. *)
Theorem C5_new_store_has_sheet_and_header
        (P : platform) (file_path : str) (data : list record) (w : world) :
  xlsx_at w file_path = None ->
  (forallb legal data = true ->
   fst (update_excel P file_path data w) = Ok tt /\
   xlsx_at (snd (update_excel P file_path data w)) file_path =
   Some (Ok [{| title := lit "Dividends";
                rows := [VStr (lit "Date"); VStr (lit "Name");
                         VStr (lit "Dividend Details"); VStr (lit "Amount")]
                        :: map row_of data |}])) /\
  (forallb legal data = false ->
   update_excel P file_path data w = (Raise IllegalCharacterError, w)) /\
  (forall a b c x,
      length a <= cell_limit -> length b <= cell_limit ->
      length c <= cell_limit ->
      row_of (VStr a, VStr b, VStr c, VFloat x)
      = [VStr a; VStr b; VStr c; VFloat x]).
Proof.
  intros H. rewrite (update_excel_new P _ data _ H).
  split; [|split].
  - intros ->.
    destruct (save_store P
                [{| title := lit "Dividends";
                    rows := header :: map row_of data |}]
                file_path w) as [H1 [H2 _]].
    split; assumption.
  - intros ->. reflexivity.
  - intros a b c x La Lb Lc. unfold row_of, entry_values. cbn [map].
    unfold kept. now rewrite !firstn_all2.
Qed.

Lemma C5_new_store_witness :
  xlsx_at (snd (update_excel posix (lit "out.xlsx")
                  [(VStr (lit "15Mar24"), VStr (lit " Acme Corp"),
                    VStr (lit "500@0.25"), VFloat float_123_45)]
                  empty_world))
          (lit "out.xlsx") =
  Some (Ok [{| title := lit "Dividends";
               rows := [[VStr (lit "Date"); VStr (lit "Name");
                         VStr (lit "Dividend Details"); VStr (lit "Amount")];
                        [VStr (lit "15Mar24"); VStr (lit " Acme Corp");
                         VStr (lit "500@0.25"); VFloat float_123_45]] |}]) /\
  update_excel posix (lit "out.xlsx") [form_feed_entry] empty_world
  = (Raise IllegalCharacterError, empty_world).
Proof.
  split.
  - destruct (C5_new_store_has_sheet_and_header
                posix (lit "out.xlsx")
                [(VStr (lit "15Mar24"), VStr (lit " Acme Corp"),
                  VStr (lit "500@0.25"), VFloat float_123_45)]
                empty_world eq_refl) as [Hok _].
    destruct (Hok eq_refl) as [_ Hx]. rewrite Hx. vm_compute. reflexivity.
  - destruct (C5_new_store_has_sheet_and_header
                posix (lit "out.xlsx") [form_feed_entry]
                empty_world eq_refl) as [_ [Hbad _]].
    apply Hbad. reflexivity.
Defined.

(** The statement C5 makes of the script fails: a page on which a form
    feed stands inside the name gives a record, the run on a directory
    with that one document finds no destination file, raises
    [IllegalCharacterError] in the store appender and creates none. *)
Lemma C5_record_with_form_feed_creates_no_file :
  fst (extract_fields posix form_feed_text empty_world)
  = Ok (Some form_feed_entry) /\
  xlsx_at form_feed_world (lit "out.xlsx") = None /\
  fst (process_pdfs posix (lit "dir") (lit "out.xlsx") form_feed_world)
  = Raise IllegalCharacterError /\
  xlsx_at (snd (process_pdfs posix (lit "dir") (lit "out.xlsx")
                  form_feed_world)) (lit "out.xlsx") = None.
Proof. vm_compute. auto. Qed.

(** C6, as the script has it.  When the destination file exists and holds
    no sheet called "Dividends", the store appender raises and changes
    nothing: [KeyError] when openpyxl accepts the name of the file,
    [InvalidFileException] when it does not, for then the file is not
    opened at all.  The run as a whole ends in an exception, which is that
    one whenever the loop got to its end, and the destination is not
    saved. *)
Theorem C6_missing_sheet_is_fatal
        (P : platform) (w : world) (d e : str) (file : workbook) :
  xlsx_at w e = Some (Ok file) ->
  (forall s, In s file -> title s <> lit "Dividends") ->
  (forall data,
      update_excel P e data w =
      (Raise (if supported (separators P) e then KeyError
              else InvalidFileException), w)) /\
  (forall names data,
      listdir w d = Ok names ->
      loop_pure P d w names [] = Ok data ->
      fst (process_pdfs P d e w) =
      Raise (if supported (separators P) e then KeyError
             else InvalidFileException)) /\
  (exists ex, fst (process_pdfs P d e w) = Raise ex) /\
  xlsx_at (snd (process_pdfs P d e w)) = xlsx_at w.
Proof.
  intros Hx Hs. apply find_sheet_None in Hs.
  rewrite <- (find_sheet_reread P) in Hs.
  assert (A : forall data w', same_files w w' ->
                update_excel P e data w' =
                (Raise (if supported (separators P) e then KeyError
                        else InvalidFileException), w')).
  { intros data w' [_ [_ X]]. rewrite X in Hx.
    destruct (supported (separators P) e) eqn:S.
    - now apply (update_excel_no_sheet P e data w' file).
    - now apply (update_excel_refused P e data w' (Ok file)). }
  split; [intros data; apply A, same_files_refl|].
  destruct (listdir w d) as [names|ex] eqn:Hl.
  - destruct (process_spec P d e w names Hl) as [w' [S E]].
    rewrite E.
    destruct (loop_pure P d w names []) as [data|ex] eqn:L.
    + rewrite (A data w' S). simpl.
      split; [reflexivity|]. split; [eauto|]. now destruct S as [_ [_ <-]].
    + simpl.
      split; [intros names' data' Hn Hd; injection Hn as <-; congruence|].
      split; [eauto|]. now destruct S as [_ [_ <-]].
  - rewrite (process_no_listing P d e w ex Hl). simpl.
    split; [discriminate|]. split; [eauto|reflexivity].
Qed.

Lemma C6_missing_sheet_witness :
  fst (process_pdfs posix (lit "dir") (lit "out.xlsx")
         (with_book other_book sample_world)) = Raise KeyError /\
  xlsx_at (snd (process_pdfs posix (lit "dir") (lit "out.xlsx")
                  (with_book other_book sample_world)))
  = xlsx_at (with_book other_book sample_world).
Proof.
  destruct (C6_missing_sheet_is_fatal
              posix (with_book other_book sample_world)
              (lit "dir") (lit "out.xlsx") other_book eq_refl)
    as [_ [Hk [_ Hx]]].
  - intros s [<-|[]] H. vm_compute in H. discriminate H.
  - split; [|exact Hx].
    eapply Hk; [reflexivity|]. vm_compute. reflexivity.
Defined.

(** The statement C6 makes of the script fails for a destination whose
    name openpyxl does not accept: a workbook without the sheet, kept
    under the name [out.txt], makes the store appender raise
    [InvalidFileException], not [KeyError]. *)
Lemma C6_other_name_is_no_missing_sheet :
  xlsx_at (with_book other_book sample_world) (lit "out.txt")
  = Some (Ok other_book) /\
  find_sheet (lit "Dividends") other_book = None /\
  fst (process_pdfs posix (lit "dir") (lit "out.txt")
         (with_book other_book sample_world))
  = Raise InvalidFileException /\
  fst (process_pdfs posix (lit "dir") (lit "out.txt")
         (with_book other_book sample_world))
  <> Raise KeyError.
Proof.
  split; [reflexivity|]. split; [reflexivity|].
  split; [vm_compute; reflexivity|]. vm_compute. discriminate.
Qed.

(** C7, as the script has it.  When the destination file exists and its
    sheet "Dividends" is loaded with a header and N rows of data, and
    every cell of the M records is accepted by openpyxl, appending keeps
    the header and those N rows as they were loaded and gives N + M rows
    of data, the M new ones after the first N and in input order; the
    other sheets are as they were loaded.  When a record holds a string
    with a control character that openpyxl refuses, the appender raises
    [IllegalCharacterError] and the file is as it was. *)
Theorem C7_append_keeps_existing_rows
        (P : platform) (file_path : str) (data : list record) (w : world)
        (wb : workbook) (i : nat) (s : sheet) (hdr : row) (old : list row) :
  fst (load_workbook P file_path w) = Ok wb ->
  find_sheet (lit "Dividends") wb = Some i ->
  nth_error wb i = Some s ->
  rows s = hdr :: old ->
  (forallb legal data = true ->
   fst (update_excel P file_path data w) = Ok tt /\
   exists wb' s',
     xlsx_at (snd (update_excel P file_path data w)) file_path
     = Some (Ok wb') /\
     find_sheet (lit "Dividends") wb' = Some i /\
     nth_error wb' i = Some s' /\
     title s' = title s /\
     rows s' = hdr :: old ++ map row_of data /\
     length (old ++ map row_of data) = length old + length data /\
     firstn (S (length old)) (rows s') = hdr :: old /\
     (forall k, k <> i -> nth_error wb' k = nth_error wb k)) /\
  (forallb legal data = false ->
   update_excel P file_path data w = (Raise IllegalCharacterError, w)).
Proof.
  intros Hload Hf Hn Hr.
  destruct (load_ok_inv P _ _ _ Hload) as [S [file [Hx ->]]].
  rewrite (update_excel_existing P _ data _ _ _ Hx S Hf).
  split; [|intros ->; reflexivity].
  intros ->.
  destruct (save_store P
              (update_sheet i (append_rows (map row_of data))
                            (map (reread_sheet P) file))
              file_path w) as [H1 [H2 _]].
  split; [assumption|].
  exists (update_sheet i (append_rows (map row_of data))
                       (map (reread_sheet P) file)),
         (append_rows (map row_of data) s).
  split; [assumption|].
  split; [now rewrite find_sheet_update|].
  split; [now rewrite nth_error_update_sheet, Nat.eqb_refl, Hn|].
  split; [reflexivity|].
  assert (R : rows (append_rows (map row_of data) s)
              = hdr :: old ++ map row_of data)
    by (unfold append_rows; simpl; now rewrite Hr).
  split; [assumption|].
  split; [now rewrite length_app, length_map|].
  split.
  - rewrite R. simpl. f_equal.
    rewrite firstn_app, firstn_all, Nat.sub_diag. simpl. apply app_nil_r.
  - intros k Hk. rewrite nth_error_update_sheet.
    apply Nat.eqb_neq in Hk. now rewrite Hk.
Qed.

Lemma C7_append_witness :
  xlsx_at (snd (update_excel posix (lit "out.xlsx")
                  [(VStr (lit "15Mar24"), VStr (lit " Acme Corp"),
                    VStr (lit "500@0.25"), VFloat float_123_45)]
                  (with_book ledger_book sample_world)))
          (lit "out.xlsx") =
  Some (Ok [{| title := lit "Notes"; rows := [[VStr (lit "memo")]] |};
            {| title := lit "Dividends";
               rows := header :: ledger_rows ++
                       [[VStr (lit "15Mar24"); VStr (lit " Acme Corp");
                         VStr (lit "500@0.25"); VFloat float_123_45]] |}]) /\
  update_excel posix (lit "out.xlsx") [form_feed_entry]
               (with_book ledger_book sample_world)
  = (Raise IllegalCharacterError, with_book ledger_book sample_world).
Proof.
  destruct (C7_append_keeps_existing_rows
              posix (lit "out.xlsx")
              [(VStr (lit "15Mar24"), VStr (lit " Acme Corp"),
                VStr (lit "500@0.25"), VFloat float_123_45)]
              (with_book ledger_book sample_world)
              ledger_book 1 _ header ledger_rows
              eq_refl eq_refl eq_refl eq_refl)
    as [Hok _].
  destruct (C7_append_keeps_existing_rows
              posix (lit "out.xlsx") [form_feed_entry]
              (with_book ledger_book sample_world)
              ledger_book 1 _ header ledger_rows
              eq_refl eq_refl eq_refl eq_refl)
    as [_ Hbad].
  split.
  - destruct (Hok eq_refl) as [_ [wb' [s' [Hx _]]]].
    rewrite Hx. vm_compute in Hx. injection Hx as <-. reflexivity.
  - apply Hbad. reflexivity.
Defined.

(** The statement C7 makes of the script fails: with the record of the
    page that has a form feed in the name, the store appender raises
    [IllegalCharacterError] on a workbook that holds the sheet and two
    rows of data; nothing is saved, the sheet keeps its two rows. *)
Lemma C7_record_with_form_feed_is_not_appended :
  fst (extract_fields posix form_feed_text empty_world)
  = Ok (Some form_feed_entry) /\
  fst (load_workbook posix (lit "out.xlsx")
         (with_book ledger_book sample_world)) = Ok ledger_book /\
  fst (update_excel posix (lit "out.xlsx") [form_feed_entry]
         (with_book ledger_book sample_world))
  = Raise IllegalCharacterError /\
  xlsx_at (snd (update_excel posix (lit "out.xlsx") [form_feed_entry]
                  (with_book ledger_book sample_world))) (lit "out.xlsx")
  = Some (Ok ledger_book).
Proof. vm_compute. auto. Qed.

(** C8, as the script has it.  The amount of every record extracted is a
    float, and it is handed to the sheet as such, not as text: the row
    made of the record ends in that float.  What the file holds of it is
    the number of 16 significant digits nearest to it, which is read back
    as a number and never as text, and nothing at all when the float is
    infinite.  When the amount read on the page is [Dividend 123.45] the
    float is 123.45, it is read back as 123.45, and it is not the string
    "123.45". *)
Theorem C8_amount_is_stored_as_a_number
        (P : platform) (t : str) (w : world) (entry : record) :
  fst (extract_fields P t w) = Ok (Some entry) ->
  exists a b c f,
    entry = (VStr a, VStr b, VStr c, VFloat f) /\
    (exists a' b' c', row_of entry = [VStr a'; VStr b'; VStr c'; VFloat f]) /\
    (forall file_path w0,
        xlsx_at w0 file_path = None ->
        legal entry = true ->
        xlsx_at (snd (update_excel P file_path [entry] w0)) file_path =
        Some (Ok [{| title := lit "Dividends";
                     rows := [header; row_of entry] |}])) /\
    reread_cell P (VFloat f) = reread_float f /\
    (forall s, reread_float f <> VStr s) /\
    (reread_float f = VNone <-> f = S754_infinity false) /\
    (forall i,
        first_occ (amount_at (unicode P) t) i (i + 15) ->
        slice t (i + 9) (i + 15) = lit "123.45" ->
        f = float_123_45 /\
        reread_float f = VFloat float_123_45 /\
        VFloat f <> VStr (lit "123.45")).
Proof.
  intros H.
  destruct (extract_fields_result P t w entry H)
    as [dm [nm [vm [am [f [_ [_ [_ [Ea [Hf ->]]]]]]]]]].
  do 3 eexists. exists f. split; [reflexivity|].
  split; [do 3 eexists; reflexivity|].
  split; [|split; [reflexivity|split; [|split]]].
  - intros file_path w0 X L.
    rewrite (update_excel_new P _ _ _ X). simpl forallb. rewrite L.
    unfold save. simpl. now rewrite str_eqb_refl.
  - intros s. apply reread_float_number.
  - pose proof (float_of_str_nonneg _ _ _ Hf) as Hn.
    apply reread_float_none. assumption.
  - intros i F S.
    destruct (search_first (unicode P) t (amount_re (unicode P)) _ i (i + 15)
                (denotes_amount _ t) (amount_nonempty _ t)
                (amount_longest _ t) F)
      as [am' [Ea' [Hs [He _]]]].
    rewrite Ea in Ea'. injection Ea' as <-.
    rewrite Hs, He, S in Hf. vm_compute in Hf. injection Hf as <-.
    split; [reflexivity|]. split; [vm_compute; reflexivity|discriminate].
Qed.

Lemma C8_amount_witness :
  xlsx_at (snd (update_excel posix (lit "out.xlsx")
                  [(VStr (lit "15Mar24"), VStr (lit " Acme Corp"),
                    VStr (lit "500@0.25"), VFloat float_123_45)]
                  empty_world))
          (lit "out.xlsx") =
  Some (Ok [{| title := lit "Dividends";
               rows := [header;
                        [VStr (lit "15Mar24"); VStr (lit " Acme Corp");
                         VStr (lit "500@0.25"); VFloat float_123_45]] |}]) /\
  reread_float float_123_45 = VFloat float_123_45 /\
  VFloat float_123_45 <> VStr (lit "123.45").
Proof.
  destruct (C8_amount_is_stored_as_a_number
              posix statement_text empty_world
              (VStr (lit "15Mar24"), VStr (lit " Acme Corp"),
               VStr (lit "500@0.25"), VFloat float_123_45) eq_refl)
    as [a [b [c [f [E [_ [Hstore [_ [_ [_ Hnum]]]]]]]]]].
  injection E as <- <- <- <-.
  split.
  - refine (eq_trans (Hstore (lit "out.xlsx") empty_world eq_refl eq_refl) _).
    vm_compute. reflexivity.
  - apply (Hnum 27); [|reflexivity].
    apply (is_first_sound _ _ _ _ (denotes_amount _ _) (amount_nonempty _ _)).
    vm_compute. reflexivity.
Defined.

(** The statement C8 makes of the script fails.  The amount
    0.30000000000000004 of a page is extracted as that float, the run
    saves the row, and the workbook loaded from the file holds the number
    0.3 in its place, another float.  An amount of 400 digits is extracted
    as the infinite float, and the workbook loaded from the file holds an
    empty cell in its place: no number at all.  And the amount of a record
    whose name holds a form feed is not stored at all: the store appender
    raises. *)
Lemma C8_stored_amount_is_not_the_amount_read :
  (fst (extract_fields posix fine_text empty_world) = Ok (Some fine_entry) /\
   fst (update_excel posix (lit "out.xlsx") [fine_entry] empty_world)
   = Ok tt /\
   fst (load_workbook posix (lit "out.xlsx")
          (snd (update_excel posix (lit "out.xlsx") [fine_entry]
                  empty_world)))
   = Ok [{| title := lit "Dividends";
            rows := [header;
                     [VStr (lit "15Mar24"); VStr (lit " Acme Corp");
                      VStr (lit "500@0.25"); VFloat float_0_3]] |}] /\
   float_0_3 <> float_0_30000000000000004) /\
  (fst (extract_fields posix huge_text empty_world) = Ok (Some huge_entry) /\
   fst (update_excel posix (lit "out.xlsx") [huge_entry] empty_world)
   = Ok tt /\
   fst (load_workbook posix (lit "out.xlsx")
          (snd (update_excel posix (lit "out.xlsx") [huge_entry]
                  empty_world)))
   = Ok [{| title := lit "Dividends";
            rows := [header;
                     [VStr (lit "15Mar24"); VStr (lit " Acme Corp");
                      VStr (lit "500@0.25"); VNone]] |}]) /\
  (fst (extract_fields posix form_feed_text empty_world)
   = Ok (Some form_feed_entry) /\
   update_excel posix (lit "out.xlsx") [form_feed_entry] empty_world
   = (Raise IllegalCharacterError, empty_world)).
Proof.
  split; [|split].
  - split; [vm_compute; reflexivity|]. split; [vm_compute; reflexivity|].
    split; [vm_compute; reflexivity|]. vm_compute. discriminate.
  - split; [vm_compute; reflexivity|]. split; [vm_compute; reflexivity|].
    vm_compute. reflexivity.
  - split; vm_compute; reflexivity.
Qed.




(** C10.  When no document yields a record (the directory is empty, every
    document is skipped, or no file is a PDF) the loop still ends in its one
    call of the store appender, with no records; with no destination file
    beforehand the file is created and saved with the sheet "Dividends"
    alone, holding the header and no row of data. *)
Theorem C10_no_record_still_saves
        (P : platform) (w : world) (d e : str) (names : list str) :
  listdir w d = Ok names ->
  (forall g, In g names ->
             endswith g (lit ".pdf") = false \/
             fst (extract_dividend_details P (path_join P d g) w) = Ok None) ->
  (exists w', same_files w w' /\
              process_pdfs P d e w = update_excel P e [] w') /\
  (xlsx_at w e = None ->
   fst (process_pdfs P d e w) = Ok tt /\
   xlsx_at (snd (process_pdfs P d e w)) e =
   Some (Ok [{| title := lit "Dividends";
                rows := [[VStr (lit "Date"); VStr (lit "Name");
                          VStr (lit "Dividend Details");
                          VStr (lit "Amount")]] |}])).
Proof.
  intros Hl Hn.
  destruct (process_spec P d e w names Hl) as [w' [S E]].
  rewrite (loop_pure_nothing P d w names Hn []) in E.
  split; [exists w'; auto|].
  intros X. rewrite E.
  assert (X' : xlsx_at w' e = None) by (destruct S as [_ [_ <-]]; assumption).
  rewrite (update_excel_new P e [] w' X').
  unfold save. simpl. now rewrite str_eqb_refl.
Qed.

Lemma C10_no_record_witness :
  fst (process_pdfs posix (lit "dir") (lit "out.xlsx") idle_world) = Ok tt /\
  xlsx_at (snd (process_pdfs posix (lit "dir") (lit "out.xlsx") idle_world))
          (lit "out.xlsx") =
  Some (Ok [{| title := lit "Dividends"; rows := [header] |}]).
Proof.
  destruct (C10_no_record_still_saves
              posix idle_world (lit "dir") (lit "out.xlsx") _ eq_refl)
    as [_ H].
  - intros g Hg. simpl in Hg.
    destruct Hg as [<-|[<-|[<-|[]]]].
    + right. reflexivity.
    + left. reflexivity.
    + right. vm_compute. reflexivity.
  - apply H. reflexivity.
Defined.

(** * Further properties of the script *)

(** ** What a returned record is made of *)

Section RecordFacts.
Variable P : platform.
Local Abbreviation U := (unicode P).

(** What [re.search] finds is a first occurrence. *)
Lemma search_is_first (t : str) (r : regex) (occ : nat -> nat -> Prop)
      (m : match_obj) :
  (forall i j, denotes U t r i j <-> occ i j) ->
  (forall st, longest_first (matches U t r st)) ->
  re_search U t r = Some m ->
  first_occ occ (m_start m) (m_end m).
Proof.
  intros Hocc L E.
  destruct (re_search_Some U t r m E) as [D [[rest Hr] Hleft]].
  split; [now apply Hocc|].
  intros i' j' O. apply Hocc in O.
  pose proof (Hleft i' j' O) as Hle.
  destruct (Nat.eq_dec i' (m_start m)) as [->|Hne]; [|left; lia].
  right. split; [reflexivity|].
  apply (head_longest U t r (m_start m) (m_end m) [] (m_groups m) rest
           (L _) Hr j' O).
Qed.

Lemma record_occurrences (t : str) (w : world) (entry : record) :
  fst (extract_fields P t w) = Ok (Some entry) ->
  exists i1 j1 i2 j2 i3 j3 i4 j4 f,
    first_occ (date_at U t) i1 j1 /\
    first_occ (name_at U t) i2 j2 /\
    first_occ (dividend_at U t) i3 j3 /\
    first_occ (amount_at U t) i4 j4 /\
    float_of_str U (slice t (i4 + 9) j4) = Ok f /\
    entry = (VStr (slice t i1 j1), VStr (slice t i2 j2),
             VStr (slice t i3 j3), VFloat f).
Proof.
  intros H.
  destruct (extract_fields_result P t w entry H)
    as [dm [nm [vm [am [f [Ed [En [Ev [Ea [Hf ->]]]]]]]]]].
  exists (m_start dm), (m_end dm), (m_start nm), (m_end nm),
         (m_start vm), (m_end vm), (m_start am), (m_end am), f.
  split; [apply (search_is_first t _ _ dm (denotes_date U t)
                   (date_longest U t) Ed)|].
  split; [apply (search_is_first t _ _ nm (denotes_name U t)
                   (name_longest U t) En)|].
  split; [apply (search_is_first t _ _ vm (denotes_dividend U t)
                   (dividend_longest U t) Ev)|].
  split; [apply (search_is_first t _ _ am (denotes_amount U t)
                   (amount_longest U t) Ea)|].
  split; [assumption|reflexivity].
Qed.

(** The text of an occurrence, cut into its parts. *)
Lemma date_slice (t : str) (i j : nat) :
  date_at U t i j ->
  exists a b c,
    slice t i j = a ++ b ++ c /\
    length a = 2 /\ length b = 3 /\ length c = 2 /\
    Forall (fun x => cls_digit U x = true) a /\
    Forall (fun x => cls_alpha x = true) b /\
    Forall (fun x => cls_digit U x = true) c.
Proof.
  intros [A [B [C ->]]].
  exists (slice t i (i + 2)), (slice t (i + 2) (i + 5)),
         (slice t (i + 5) (i + 7)).
  split.
  - rewrite (slice_split t i (i + 2) (i + 7)) by lia.
    now rewrite (slice_split t (i + 2) (i + 5) (i + 7)) by lia.
  - rewrite (slice_length _ _ _ _ A), (slice_length _ _ _ _ B),
      (slice_length _ _ _ _ C).
    repeat split; try lia; now apply slice_all_in.
Qed.

Lemma name_slice (t : str) (i j : nat) :
  name_at U t i j ->
  exists run suf,
    slice t i j = run ++ suf /\ run <> [] /\
    Forall (fun x => cls_name U x = true) run /\ In suf suffixes.
Proof.
  intros [_ [[k [suf [Hk [A [Hin [L ->]]]]]] _]].
  exists (slice t i k), suf. split.
  - rewrite (slice_split t i k (k + length suf)) by lia.
    unfold lit_at in L. now rewrite L.
  - split.
    + intros E. pose proof (slice_length _ _ _ _ A) as Hl.
      rewrite E in Hl. simpl in Hl. lia.
    + split; [now apply slice_all_in|assumption].
Qed.

Lemma dividend_slice (t : str) (i j : nat) :
  dividend_at U t i j ->
  exists q dec,
    slice t i j = q ++ lit "@" ++ dec /\ q <> [] /\
    Forall (fun x => cls_digit U x = true) q /\
    exists f, float_of_str U dec = Ok f.
Proof.
  intros [a [Ha [A [L Dec]]]].
  pose proof (decimal_nonempty U t _ _ Dec) as Hj.
  exists (slice t i a), (slice t (a + 1) j). split.
  - rewrite (slice_split t i a j) by lia.
    rewrite (slice_split t a (a + 1) j) by lia.
    unfold lit_at in L. simpl length in L. now rewrite L.
  - split.
    + intros E. pose proof (slice_length _ _ _ _ A) as Hl.
      rewrite E in Hl. simpl in Hl. lia.
    + split; [now apply slice_all_in|].
      now apply float_of_decimal.
Qed.

(** A decimal can be read on by one digit. *)
Lemma decimal_extend (t : str) (i j : nat) :
  decimal_at U t i j -> class_at t (cls_digit U) j ->
  decimal_at U t i (S j).
Proof.
  intros [d [Hd [A1 [L [Hj A2]]]]] Cj.
  exists d. repeat split; try assumption; try lia.
  intros k Hk. destruct (Nat.eq_dec k j) as [->|Hne]; [assumption|].
  apply A2. lia.
Qed.
End RecordFacts.

(** X1.  [float] accepts whatever the amount pattern captured: the
    conversion of line 60 raises on no text, and gives a float that is
    neither NaN nor negative. *)
Theorem X1_amount_conversion_never_raises
        (P : platform) (t : str) (am : match_obj) :
  re_search (unicode P) t (amount_re (unicode P)) = Some am ->
  exists f,
    py_float (unicode P) (group t am 1) = Ok (VFloat f) /\
    is_nonneg f = true.
Proof.
  intros Ea.
  destruct (re_search_Some (unicode P) t _ am Ea) as [D [[rest Hr] _]].
  apply amount_group in Hr. apply denotes_amount in D.
  destruct D as [_ [_ Dec]].
  destruct (float_of_decimal (unicode P) t _ _ Dec) as [f Hf].
  assert (G : group t am 1 = VStr (slice t (m_start am + 9) (m_end am)))
    by (unfold group; now rewrite Hr).
  exists f. rewrite G. unfold py_float. rewrite Hf.
  split; [reflexivity|]. apply (float_of_str_nonneg _ _ _ Hf).
Qed.

Lemma X1_amount_conversion_witness :
  exists f,
    py_float ascii_only
             (group huge_text
                    {| m_start := 27; m_end := 438;
                       m_groups := [(1, (36, 438))] |} 1)
    = Ok (VFloat f) /\
    is_nonneg f = true.
Proof.
  apply (X1_amount_conversion_never_raises
           posix huge_text
           {| m_start := 27; m_end := 438; m_groups := [(1, (36, 438))] |}).
  vm_compute. reflexivity.
Defined.

(** X2.  On a document that PyPDF2 cannot open or parse, or whose third
    page it cannot extract, the reader raises that very exception, before
    it has printed anything. *)
Theorem X2_reader_raises_what_the_parser_raises
        (P : platform) (pdf_path : str) (w : world) (ex : exn) :
  unreadable w pdf_path ex ->
  extract_dividend_details P pdf_path w = (Raise ex, w).
Proof.
  intros [Hp|[pages [Hp N]]].
  - now apply details_unreadable.
  - now rewrite (details_page3 P _ _ _ _ Hp N).
Qed.

Lemma X2_reader_witness :
  extract_dividend_details posix (lit "dir/bad.pdf") broken_world
  = (Raise PdfReadError, broken_world).
Proof.
  apply (X2_reader_raises_what_the_parser_raises
           posix (lit "dir/bad.pdf") broken_world PdfReadError).
  left. reflexivity.
Defined.

(** X3.  Whenever the extractor returns a record, each field is the first
    occurrence of its pattern in the text: the leftmost one and, of those
    that start there, the longest; the amount is the float read from the
    decimal after [Dividend] and one whitespace character. *)
Theorem X3_record_fields_are_first_occurrences
        (P : platform) (t : str) (w : world) (entry : record) :
  fst (extract_fields P t w) = Ok (Some entry) ->
  exists i1 j1 i2 j2 i3 j3 i4 j4 f,
    first_occ (date_at (unicode P) t) i1 j1 /\
    first_occ (name_at (unicode P) t) i2 j2 /\
    first_occ (dividend_at (unicode P) t) i3 j3 /\
    first_occ (amount_at (unicode P) t) i4 j4 /\
    float_of_str (unicode P) (slice t (i4 + 9) j4) = Ok f /\
    entry = (VStr (slice t i1 j1), VStr (slice t i2 j2),
             VStr (slice t i3 j3), VFloat f).
Proof.
  intros H.
  destruct (record_occurrences P t w entry H)
    as [i1 [j1 [i2 [j2 [i3 [j3 [i4 [j4 [f Hf]]]]]]]]].
  exists i1, j1, i2, j2, i3, j3, i4, j4, f. exact Hf.
Qed.

Lemma X3_record_witness :
  exists i1 j1 i2 j2 i3 j3 i4 j4,
    first_occ (date_at ascii_only statement_text) i1 j1 /\
    first_occ (name_at ascii_only statement_text) i2 j2 /\
    first_occ (dividend_at ascii_only statement_text) i3 j3 /\
    first_occ (amount_at ascii_only statement_text) i4 j4.
Proof.
  destruct (X3_record_fields_are_first_occurrences
              posix statement_text empty_world
              (VStr (lit "15Mar24"), VStr (lit " Acme Corp"),
               VStr (lit "500@0.25"), VFloat float_123_45) eq_refl)
    as [i1 [j1 [i2 [j2 [i3 [j3 [i4 [j4 [f [H1 [H2 [H3 [H4 _]]]]]]]]]]]]].
  exists i1, j1, i2, j2, i3, j3, i4, j4. auto.
Defined.

(** X4.  The lexical shape of a returned record: the date is two digits,
    three letters and two digits, seven characters in all; the name is a
    non-empty run of letters, whitespace, [&] and [-] followed by one of
    the six suffixes; the dividend detail is a non-empty run of digits, an
    [@] and a decimal that [float] accepts. *)
Theorem X4_record_shape
        (P : platform) (t : str) (w : world)
        (date name details amount : value) :
  fst (extract_fields P t w) = Ok (Some (date, name, details, amount)) ->
  (exists a b c,
      date = VStr (a ++ b ++ c) /\
      length a = 2 /\ length b = 3 /\ length c = 2 /\
      Forall (fun x => cls_digit (unicode P) x = true) a /\
      Forall (fun x => cls_alpha x = true) b /\
      Forall (fun x => cls_digit (unicode P) x = true) c) /\
  (exists run suf,
      name = VStr (run ++ suf) /\ run <> [] /\
      Forall (fun x => cls_name (unicode P) x = true) run /\
      In suf suffixes) /\
  (exists q dec,
      details = VStr (q ++ lit "@" ++ dec) /\ q <> [] /\
      Forall (fun x => cls_digit (unicode P) x = true) q /\
      exists f, float_of_str (unicode P) dec = Ok f).
Proof.
  intros H.
  destruct (record_occurrences P t w _ H)
    as [i1 [j1 [i2 [j2 [i3 [j3 [i4 [j4 [f
        [[D1 _] [[D2 _] [[D3 _] [_ [_ E]]]]]]]]]]]]]].
  injection E as -> -> -> ->.
  split; [|split].
  - destruct (date_slice P t i1 j1 D1) as [a [b [c [-> Hs]]]].
    exists a, b, c. split; [reflexivity|assumption].
  - destruct (name_slice P t i2 j2 D2) as [run [suf [-> Hs]]].
    exists run, suf. split; [reflexivity|assumption].
  - destruct (dividend_slice P t i3 j3 D3) as [q [dec [-> Hs]]].
    exists q, dec. split; [reflexivity|assumption].
Qed.

Lemma X4_record_shape_witness :
  exists a b c,
    VStr (lit "15Mar24") = VStr (a ++ b ++ c) /\
    length a = 2 /\ length b = 3 /\ length c = 2.
Proof.
  destruct (X4_record_shape
              posix statement_text empty_world
              (VStr (lit "15Mar24")) (VStr (lit " Acme Corp"))
              (VStr (lit "500@0.25")) (VFloat float_123_45) eq_refl)
    as [[a [b [c [E [La [Lb [Lc _]]]]]]] _].
  exists a, b, c. auto.
Defined.

(** X5.  The amount of a returned record is never NaN and never negative:
    it is zero, a positive number or plus infinity (the last for a decimal
    too large for a binary64 number). *)
Theorem X5_amount_is_never_nan_or_negative
        (P : platform) (t : str) (w : world)
        (date name details amount : value) :
  fst (extract_fields P t w) = Ok (Some (date, name, details, amount)) ->
  exists f, amount = VFloat f /\ is_nonneg f = true.
Proof.
  intros H.
  destruct (extract_fields_result P t w _ H)
    as [dm [nm [vm [am [f [_ [_ [_ [_ [Hf E]]]]]]]]]].
  injection E as _ _ _ ->.
  exists f. split; [reflexivity|].
  apply (float_of_str_nonneg _ _ _ Hf).
Qed.

Lemma X5_amount_witness :
  exists f, VFloat float_123_45 = VFloat f /\ is_nonneg f = true.
Proof.
  apply (X5_amount_is_never_nan_or_negative
           posix statement_text empty_world
           (VStr (lit "15Mar24")) (VStr (lit " Acme Corp"))
           (VStr (lit "500@0.25")) (VFloat float_123_45)).
  reflexivity.
Defined.

(** X6.  The amount is never cut short: the match of the amount pattern
    that the record's amount is read from ends where the digits end, so
    the character after it, if any, is no digit. *)
Theorem X6_amount_is_not_truncated
        (P : platform) (t : str) (w : world)
        (date name details amount : value) :
  fst (extract_fields P t w) = Ok (Some (date, name, details, amount)) ->
  exists i j f,
    amount_at (unicode P) t i j /\
    float_of_str (unicode P) (slice t (i + 9) j) = Ok f /\
    amount = VFloat f /\
    forall c, nth_error t j = Some c -> cls_digit (unicode P) c = false.
Proof.
  intros H.
  destruct (record_occurrences P t w _ H)
    as [i1 [j1 [i2 [j2 [i3 [j3 [i4 [j4 [f
        [_ [_ [_ [[A F] [Hf E]]]]]]]]]]]]]].
  injection E as _ _ _ ->.
  exists i4, j4, f.
  split; [assumption|]. split; [assumption|]. split; [reflexivity|].
  intros c Hc. destruct (cls_digit (unicode P) c) eqn:Ec; [|reflexivity].
  exfalso.
  assert (A' : amount_at (unicode P) t i4 (S j4)).
  { destruct A as [L [Sp Dec]].
    split; [assumption|]. split; [assumption|].
    apply decimal_extend; [assumption|]. exists c. auto. }
  destruct (F _ _ A') as [Hlt|[_ Hle]]; lia.
Qed.

Lemma X6_amount_witness :
  exists i j,
    amount_at ascii_only statement_text i j /\
    forall c, nth_error statement_text j = Some c ->
              cls_digit ascii_only c = false.
Proof.
  destruct (X6_amount_is_not_truncated
              posix statement_text empty_world
              (VStr (lit "15Mar24")) (VStr (lit " Acme Corp"))
              (VStr (lit "500@0.25")) (VFloat float_123_45) eq_refl)
    as [i [j [f [A [_ [_ N]]]]]].
  exists i, j. auto.
Defined.

(** ** The reader and the loop, document by document *)

Lemma endswith_spec (s suf : str) :
  endswith s suf = true <-> exists pre, s = pre ++ suf.
Proof.
  unfold endswith. rewrite andb_true_iff, Nat.leb_le, str_eqb_eq. split.
  - intros [_ E]. exists (firstn (length s - length suf) s).
    pose proof (firstn_skipn (length s - length suf) s) as F.
    rewrite E in F. symmetry. exact F.
  - intros [pre ->]. rewrite length_app. split; [lia|].
    replace (length pre + length suf - length suf) with (length pre) by lia.
    rewrite skipn_app, skipn_all, Nat.sub_diag. reflexivity.
Qed.

Section LoopFacts.
Variable P : platform.

Lemma for_each_skip (d : str) (l1 l2 : list str) (f : str) :
  endswith f (lit ".pdf") = false ->
  forall acc w,
    for_each (l1 ++ f :: l2) acc (loop_body P d) w =
    for_each (l1 ++ l2) acc (loop_body P d) w.
Proof.
  intros Hf. induction l1 as [|g l1 IH]; intros acc w.
  - simpl app. rewrite for_each_cons. unfold loop_body at 1.
    rewrite Hf. reflexivity.
  - simpl app. rewrite !for_each_cons.
    destruct (loop_body P d acc g w) as [[a|e] w']; [apply IH|reflexivity].
Qed.

Lemma loop_pure_yield (d : str) (w : world) (names : list str) :
  forall acc data,
    loop_pure P d w names acc = Ok data ->
    data = acc ++ flat_map (yield P d w) names.
Proof.
  induction names as [|g names IH]; intros acc data; simpl.
  - intros H. injection H as <-. now rewrite app_nil_r.
  - unfold yield at 1. destruct (endswith g (lit ".pdf")); [|apply IH].
    destruct (fst (extract_dividend_details P (path_join P d g) w))
      as [[r|]|e]; [| apply IH | discriminate].
    intros H. apply IH in H. now rewrite <- app_assoc in H.
Qed.

Lemma loop_pure_Ok_inv (d : str) (w : world) (names : list str) :
  forall acc data,
    loop_pure P d w names acc = Ok data ->
    forall g, In g names -> endswith g (lit ".pdf") = true ->
              exists o, fst (extract_dividend_details P (path_join P d g) w)
                        = Ok o.
Proof.
  induction names as [|g names IH]; intros acc data H g' Hg' Eg'.
  - destruct Hg'.
  - simpl in H. destruct Hg' as [<-|Hg'].
    + rewrite Eg' in H.
      destruct (fst (extract_dividend_details P (path_join P d g) w))
        as [o|e]; [eauto|discriminate].
    + destruct (endswith g (lit ".pdf")); [|now apply (IH _ _ H)].
      destruct (fst (extract_dividend_details P (path_join P d g) w))
        as [[r|]|e]; [now apply (IH _ _ H) | now apply (IH _ _ H)
                     | discriminate].
Qed.

Lemma yield_length (d : str) (w : world) (names : list str) :
  length (flat_map (yield P d w) names) <= length names.
Proof.
  induction names as [|g names IH]; simpl; [lia|].
  rewrite length_app. unfold yield at 1.
  destruct (endswith g (lit ".pdf")); [|simpl; lia].
  destruct (fst (extract_dividend_details P (path_join P d g) w))
    as [[r|]|e]; simpl; lia.
Qed.

Lemma yield_ext (d : str) (w w' : world) (g : str) :
  pdf_at w = pdf_at w' -> yield P d w g = yield P d w' g.
Proof.
  intros E. unfold yield.
  destruct (endswith g (lit ".pdf")); [|reflexivity].
  rewrite (details_any_world P _ w w') by now rewrite E. reflexivity.
Qed.

(** A record the reader returns was extracted from the third page. *)
Lemma details_Some (pdf_path : str) (w : world) (entry : record) :
  fst (extract_dividend_details P pdf_path w) = Ok (Some entry) ->
  exists pages text,
    pdf_at w pdf_path = Ok pages /\
    nth_error pages 2 = Some (Ok text) /\
    fst (extract_fields P text w) = Ok (Some entry).
Proof.
  intros H. destruct (pdf_at w pdf_path) as [pages|e] eqn:Hp.
  - destruct (nth_error pages 2) as [[text|e]|] eqn:N.
    + rewrite (details_text P _ _ _ _ Hp N) in H. exists pages, text. auto.
    + rewrite (details_page3 P _ _ _ _ Hp N) in H. discriminate H.
    + assert (L : length pages < 3) by (apply nth_error_None in N; lia).
      rewrite (details_short P _ _ _ Hp L) in H. discriminate H.
  - rewrite (details_unreadable P _ _ _ Hp) in H. discriminate H.
Qed.

Lemma yield_rows (d : str) (w : world) (g : str) (entry : record) :
  In entry (yield P d w g) ->
  exists a b c f,
    row_of entry = [VStr a; VStr b; VStr c; VFloat f] /\ is_nonneg f = true.
Proof.
  unfold yield. destruct (endswith g (lit ".pdf")); [|intros []].
  destruct (fst (extract_dividend_details P (path_join P d g) w))
    as [[r|]|e] eqn:E; [|intros []|intros []].
  intros [<-|[]].
  destruct (details_Some _ _ _ E) as [pages [text [_ [_ Hx]]]].
  destruct (extract_fields_result P text w r Hx)
    as [dm [nm [vm [am [f [_ [_ [_ [_ [Hf ->]]]]]]]]]].
  do 3 eexists. exists f. split; [reflexivity|].
  apply (float_of_str_nonneg _ _ _ Hf).
Qed.

Lemma forallb_Permutation (A : Type) (f : A -> bool) (l l' : list A) :
  Permutation l l' -> forallb f l = true -> forallb f l' = true.
Proof.
  intros Pm H. apply forallb_forall. intros x Hx.
  apply (proj1 (forallb_forall f l) H).
  apply (Permutation_in x (Permutation_sym Pm) Hx).
Qed.

(** A run that succeeds on a fresh destination, in one equation. *)
Lemma fresh_run (d e : str) (w w1 : world) (names : list str) :
  process_pdfs P d e w = (Ok tt, w1) ->
  listdir w d = Ok names ->
  xlsx_at w e = None ->
  loop_pure P d w names [] = Ok (flat_map (yield P d w) names) /\
  xlsx_at w1 e =
  Some (Ok [{| title := lit "Dividends";
               rows := header ::
                       map row_of (flat_map (yield P d w) names) |}]) /\
  forallb legal (flat_map (yield P d w) names) = true.
Proof.
  intros H Hl X.
  destruct (run_ok_inv P d e w w1 H) as [names' [data [w' [Hl' [L [S U1]]]]]].
  rewrite Hl in Hl'. injection Hl' as <-.
  pose proof (loop_pure_yield d w names [] data L) as ->. simpl in *.
  split; [assumption|].
  assert (X' : xlsx_at w' e = None) by (destruct S as [_ [_ <-]]; assumption).
  rewrite (update_excel_new P e _ w' X') in U1.
  destruct (forallb legal (flat_map (yield P d w) names)); [|discriminate].
  injection U1 as <-. simpl. now rewrite str_eqb_refl.
Qed.
End LoopFacts.

(** X7.  Of a document with three pages or more the reader uses the third
    page only: two documents with the same third page give the same
    result, whatever their paths, their other pages and the rest of the
    world; and reading changes no file. *)
Theorem X7_reader_uses_page_three_only
        (P : platform) (path path' : str) (w w' : world)
        (pages pages' : list (outcome str)) :
  pdf_at w path = Ok pages ->
  pdf_at w' path' = Ok pages' ->
  3 <= length pages ->
  3 <= length pages' ->
  nth_error pages 2 = nth_error pages' 2 ->
  fst (extract_dividend_details P path w) =
  fst (extract_dividend_details P path' w') /\
  same_files w (snd (extract_dividend_details P path w)).
Proof.
  intros Hp Hp' L L' E. split; [|apply details_files].
  destruct (nth_error pages 2) as [page|] eqn:N;
    [|apply nth_error_None in N; lia].
  symmetry in E.
  rewrite (details_page3 P _ _ _ _ Hp N), (details_page3 P _ _ _ _ Hp' E).
  unfold bind, lift. destruct page as [text|ex]; [|reflexivity].
  simpl. apply extract_fields_any_world.
Qed.

Lemma X7_reader_witness :
  fst (extract_dividend_details posix (lit "dir/a.pdf") sample_world) =
  fst (extract_dividend_details posix (lit "elsewhere.pdf")
         {| listdir := fun _ => Raise OSError;
            pdf_at := fun _ => Ok [Ok []; Ok []; Ok statement_text; Ok []];
            xlsx_at := fun _ => None;
            stdout := [] |}).
Proof.
  apply (X7_reader_uses_page_three_only
           posix (lit "dir/a.pdf") (lit "elsewhere.pdf") sample_world _
           statement_pdf [Ok []; Ok []; Ok statement_text; Ok []]);
    try reflexivity; simpl; lia.
Defined.

(** X8.  A directory entry whose name is not of the form [pre ++ ".pdf"]
    (the test is case-sensitive) is never opened: the loop over a listing
    that holds it does exactly what the loop over the listing without it
    does, records, prints and all. *)
Theorem X8_other_entries_are_never_opened
        (P : platform) (d : str) (l1 l2 : list str) (f : str)
        (acc : list record) (w : world) :
  (forall pre, f <> pre ++ lit ".pdf") ->
  for_each (l1 ++ f :: l2) acc (loop_body P d) w =
  for_each (l1 ++ l2) acc (loop_body P d) w.
Proof.
  intros H. apply for_each_skip.
  destruct (endswith f (lit ".pdf")) eqn:E; [|reflexivity].
  apply endswith_spec in E. destruct E as [pre ->].
  exfalso. now apply (H pre).
Qed.

Lemma X8_other_entries_witness :
  for_each ([lit "a.pdf"] ++ lit "NOTES.PDF" :: [lit "b.pdf"]) []
           (loop_body posix (lit "dir")) sample_world =
  for_each ([lit "a.pdf"] ++ [lit "b.pdf"]) []
           (loop_body posix (lit "dir")) sample_world.
Proof.
  apply (X8_other_entries_are_never_opened
           posix (lit "dir") [lit "a.pdf"] [lit "b.pdf"] (lit "NOTES.PDF")
           [] sample_world).
  intros pre E.
  assert (F : endswith (lit "NOTES.PDF") (lit ".pdf") = true)
    by (apply endswith_spec; eauto).
  discriminate F.
Defined.

(** X9.  A run that succeeds on a destination that did not exist saves the
    header followed by the records of the documents in the order of the
    directory listing, at most one row for each entry of the listing. *)
Theorem X9_rows_follow_the_listing
        (P : platform) (d e : str) (w w1 : world) (names : list str) :
  process_pdfs P d e w = (Ok tt, w1) ->
  listdir w d = Ok names ->
  xlsx_at w e = None ->
  xlsx_at w1 e =
  Some (Ok [{| title := lit "Dividends";
               rows := header ::
                       map row_of (flat_map (yield P d w) names) |}]) /\
  length (map row_of (flat_map (yield P d w) names)) <= length names.
Proof.
  intros H Hl X.
  destruct (fresh_run P d e w w1 names H Hl X) as [_ [Hx _]].
  split; [assumption|].
  rewrite length_map. apply yield_length.
Qed.

Lemma X9_rows_witness :
  xlsx_at (snd (process_pdfs posix (lit "dir") (lit "out.xlsx") sample_world))
          (lit "out.xlsx") =
  Some (Ok [{| title := lit "Dividends";
               rows := [header;
                        [VStr (lit "15Mar24"); VStr (lit " Acme Corp");
                         VStr (lit "500@0.25"); VFloat float_123_45];
                        [VStr (lit "01Jan24"); VStr (lit "ACo");
                         VStr (lit "5@0.2"); VFloat float_1_5]] |}]).
Proof.
  destruct (X9_rows_follow_the_listing
              posix (lit "dir") (lit "out.xlsx") sample_world
              (snd (process_pdfs posix (lit "dir") (lit "out.xlsx")
                      sample_world))
              [lit "a.pdf"; lit "short.pdf"; lit "notes.txt"; lit "b.pdf"])
    as [Hx _].
  - vm_compute. reflexivity.
  - reflexivity.
  - reflexivity.
  - rewrite Hx. vm_compute. reflexivity.
Defined.

(** X10.  The order of the directory listing decides the order of the rows
    and nothing else: when the same documents are listed in another order,
    the run succeeds as well and saves the same rows, permuted. *)
Theorem X10_listing_order_permutes_the_rows
        (P : platform) (d e : str) (w w' w1 : world)
        (names names' : list str) :
  process_pdfs P d e w = (Ok tt, w1) ->
  listdir w d = Ok names ->
  listdir w' d = Ok names' ->
  Permutation names names' ->
  pdf_at w' = pdf_at w ->
  xlsx_at w e = None ->
  xlsx_at w' e = None ->
  exists w1' rs rs',
    process_pdfs P d e w' = (Ok tt, w1') /\
    xlsx_at w1 e =
      Some (Ok [{| title := lit "Dividends"; rows := header :: rs |}]) /\
    xlsx_at w1' e =
      Some (Ok [{| title := lit "Dividends"; rows := header :: rs' |}]) /\
    Permutation rs rs'.
Proof.
  intros H Hl Hl' Perm Epdf X X'.
  destruct (fresh_run P d e w w1 names H Hl X) as [L [Hx Lg]].
  assert (Ok' : exists data', loop_pure P d w' names' [] = Ok data').
  { apply loop_pure_ok. intros g Hg Eg.
    rewrite (details_any_world P _ w' w) by now rewrite Epdf.
    apply (loop_pure_Ok_inv P d w names [] _ L g); [|assumption].
    apply (Permutation_in g (Permutation_sym Perm) Hg). }
  destruct Ok' as [data' L'].
  destruct (process_spec P d e w' names' Hl') as [w2 [S2 E2]].
  rewrite L' in E2.
  assert (X2 : xlsx_at w2 e = None) by (destruct S2 as [_ [_ <-]]; assumption).
  rewrite (update_excel_new P e data' w2 X2) in E2.
  pose proof (loop_pure_yield P d w' names' [] data' L') as ->.
  simpl app in *.
  rewrite (flat_map_ext (yield P d w') (yield P d w)) in *
    by (intros g; apply yield_ext; assumption).
  assert (Pm : Permutation (flat_map (yield P d w) names)
                           (flat_map (yield P d w) names'))
    by now apply Permutation_flat_map.
  rewrite (forallb_Permutation _ legal _ _ Pm Lg) in E2.
  exists (snd (save P [{| title := lit "Dividends";
                          rows := header ::
                                  map row_of
                                      (flat_map (yield P d w) names') |}]
                    e w2)),
         (map row_of (flat_map (yield P d w) names)),
         (map row_of (flat_map (yield P d w) names')).
  split; [rewrite E2; reflexivity|]. split; [assumption|].
  split; [simpl; now rewrite str_eqb_refl|].
  now apply Permutation_map.
Qed.

Lemma X10_listing_order_witness :
  exists w1' rs rs',
    process_pdfs posix (lit "dir") (lit "out.xlsx") sample_world_reordered
    = (Ok tt, w1') /\
    xlsx_at (snd (process_pdfs posix (lit "dir") (lit "out.xlsx")
                    sample_world)) (lit "out.xlsx") =
      Some (Ok [{| title := lit "Dividends"; rows := header :: rs |}]) /\
    xlsx_at w1' (lit "out.xlsx") =
      Some (Ok [{| title := lit "Dividends"; rows := header :: rs' |}]) /\
    Permutation rs rs'.
Proof.
  apply (X10_listing_order_permutes_the_rows
           posix (lit "dir") (lit "out.xlsx")
           sample_world sample_world_reordered
           (snd (process_pdfs posix (lit "dir") (lit "out.xlsx") sample_world))
           [lit "a.pdf"; lit "short.pdf"; lit "notes.txt"; lit "b.pdf"]
           [lit "b.pdf"; lit "notes.txt"; lit "a.pdf"; lit "short.pdf"]);
    [vm_compute; reflexivity | reflexivity | reflexivity |
    | reflexivity | reflexivity | reflexivity].
  - apply Permutation_trans
      with (l' := [lit "a.pdf"; lit "short.pdf"; lit "b.pdf"; lit "notes.txt"]).
    + apply perm_skip, perm_skip, perm_swap.
    + apply Permutation_trans
        with (l' := [lit "a.pdf"; lit "short.pdf"] ++
                    [lit "b.pdf"; lit "notes.txt"]);
        [apply Permutation_refl|].
      apply (Permutation_app_comm [lit "a.pdf"; lit "short.pdf"]
               [lit "b.pdf"; lit "notes.txt"]).
Defined.

(** X11.  No partial record is handed to the sheet: every row of data a
    successful run saves to a fresh destination has exactly four cells,
    three strings and then a float that is neither NaN nor negative.  The
    file keeps no number for a float that is infinite: the fourth cell is
    read back empty exactly when it is. *)
Theorem X11_every_row_is_complete
        (P : platform) (d e : str) (w w1 : world) (names : list str) :
  process_pdfs P d e w = (Ok tt, w1) ->
  listdir w d = Ok names ->
  xlsx_at w e = None ->
  exists rs,
    xlsx_at w1 e =
      Some (Ok [{| title := lit "Dividends"; rows := header :: rs |}]) /\
    Forall (fun r => exists a b c f,
                r = [VStr a; VStr b; VStr c; VFloat f] /\
                is_nonneg f = true /\
                (nth 3 (map (reread_cell P) r) VNone = VNone <->
                 f = S754_infinity false))
           rs.
Proof.
  intros H Hl X.
  destruct (fresh_run P d e w w1 names H Hl X) as [_ [Hx _]].
  exists (map row_of (flat_map (yield P d w) names)).
  split; [assumption|].
  apply Forall_forall. intros r Hr.
  apply in_map_iff in Hr. destruct Hr as [entry [<- Hin]].
  apply in_flat_map in Hin. destruct Hin as [g [_ Hg]].
  destruct (yield_rows P d w g entry Hg) as [a [b [c [f [-> Hn]]]]].
  exists a, b, c, f. split; [reflexivity|]. split; [assumption|].
  apply reread_float_none. assumption.
Qed.

Lemma X11_every_row_witness :
  exists rs,
    xlsx_at (snd (process_pdfs posix (lit "dir") (lit "out.xlsx")
                    sample_world)) (lit "out.xlsx") =
      Some (Ok [{| title := lit "Dividends"; rows := header :: rs |}]) /\
    Forall (fun r => exists a b c f,
                r = [VStr a; VStr b; VStr c; VFloat f] /\
                is_nonneg f = true /\
                (nth 3 (map (reread_cell posix) r) VNone = VNone <->
                 f = S754_infinity false))
           rs.
Proof.
  apply (X11_every_row_is_complete
           posix (lit "dir") (lit "out.xlsx") sample_world
           (snd (process_pdfs posix (lit "dir") (lit "out.xlsx") sample_world))
           [lit "a.pdf"; lit "short.pdf"; lit "notes.txt"; lit "b.pdf"]);
    [vm_compute; reflexivity | reflexivity | reflexivity].
Defined.

(** ** The store appender and the run, as changes of the world *)




(** X13.  Two calls are not one.  On a destination that does not exist,
    a first call with legal records creates the file; the second call
    loads it, so that it appends below the rows of the first call as they
    are read back from the file.  When openpyxl does not accept the name
    of the file, or when a record of the second call is refused by a cell,
    the second call raises and the file keeps the rows of the first
    call. *)
Theorem X13_second_call_appends_to_what_is_read_back
        (P : platform) (file_path : str) (data1 data2 : list record)
        (w : world) :
  xlsx_at w file_path = None ->
  forallb legal data1 = true ->
  (supported (separators P) file_path = true ->
   forallb legal data2 = true ->
   fst ((update_excel P file_path data1 ;;;
         update_excel P file_path data2) w) = Ok tt /\
   xlsx_at (snd ((update_excel P file_path data1 ;;;
                  update_excel P file_path data2) w)) file_path =
   Some (Ok [{| title := lit "Dividends";
                rows := map (map (reread_cell P))
                            (header :: map row_of data1)
                        ++ map row_of data2 |}])) /\
  (supported (separators P) file_path = false \/
   forallb legal data2 = false ->
   fst ((update_excel P file_path data1 ;;;
         update_excel P file_path data2) w) =
   Raise (if supported (separators P) file_path then IllegalCharacterError
          else InvalidFileException) /\
   xlsx_at (snd ((update_excel P file_path data1 ;;;
                  update_excel P file_path data2) w)) file_path =
   Some (Ok [{| title := lit "Dividends";
                rows := header :: map row_of data1 |}])).
Proof.
  intros X L1.
  set (wb1 := [{| title := lit "Dividends";
                  rows := header :: map row_of data1 |}]).
  assert (Ht : (update_excel P file_path data1 ;;;
                update_excel P file_path data2) w =
               update_excel P file_path data2 (snd (save P wb1 file_path w))).
  { unfold bind. rewrite (update_excel_new P _ data1 _ X), L1. reflexivity. }
  rewrite Ht.
  destruct (save_store P wb1 file_path w) as [_ [X1 _]].
  split.
  - intros S L2.
    rewrite (update_excel_existing P file_path data2 _ wb1 0 X1 S eq_refl), L2.
    split; [reflexivity|].
    unfold save. simpl. now rewrite str_eqb_refl.
  - intros [S|L2].
    + rewrite (update_excel_refused P file_path data2 _ (Ok wb1) X1 S), S.
      split; [reflexivity|assumption].
    + destruct (supported (separators P) file_path) eqn:S.
      * rewrite (update_excel_existing P file_path data2 _ wb1 0 X1 S eq_refl),
          L2.
        split; [reflexivity|assumption].
      * rewrite (update_excel_refused P file_path data2 _ (Ok wb1) X1 S).
        split; [reflexivity|assumption].
Qed.

Lemma X13_second_call_witness :
  xlsx_at (snd ((update_excel posix (lit "out.xlsx") [fine_entry] ;;;
                 update_excel posix (lit "out.xlsx") [huge_entry])
                  empty_world)) (lit "out.xlsx") =
  Some (Ok [{| title := lit "Dividends";
               rows := [header;
                        [VStr (lit "15Mar24"); VStr (lit " Acme Corp");
                         VStr (lit "500@0.25"); VFloat float_0_3];
                        [VStr (lit "15Mar24"); VStr (lit " Acme Corp");
                         VStr (lit "500@0.25");
                         VFloat (S754_infinity false)]] |}]) /\
  fst ((update_excel posix (lit "out.txt") [fine_entry] ;;;
        update_excel posix (lit "out.txt") [huge_entry]) empty_world)
  = Raise InvalidFileException.
Proof.
  destruct (X13_second_call_appends_to_what_is_read_back
              posix (lit "out.xlsx") [fine_entry] [huge_entry] empty_world
              eq_refl eq_refl) as [Hok _].
  destruct (X13_second_call_appends_to_what_is_read_back
              posix (lit "out.txt") [fine_entry] [huge_entry] empty_world
              eq_refl eq_refl) as [_ Hbad].
  split.
  - destruct (Hok eq_refl eq_refl) as [_ Hx].
    refine (eq_trans Hx _). vm_compute. reflexivity.
  - destruct (Hbad (or_introl eq_refl)) as [Hf _]. exact Hf.
Defined.

(** X14.  On a workbook that exists the store appender writes no header
    and adds no sheet: when the records are legal, the sheets keep their
    number, order and titles, the rows of the first sheet called
    "Dividends" are the rows loaded followed by the new ones (the new ones
    alone when the sheet was empty), and with no record to append the
    workbook is saved as it was loaded. *)
Theorem X14_existing_workbook_gets_no_header
        (P : platform) (file_path : str) (data : list record) (w : world)
        (wb : workbook) (i : nat) (s : sheet) :
  fst (load_workbook P file_path w) = Ok wb ->
  find_sheet (lit "Dividends") wb = Some i ->
  nth_error wb i = Some s ->
  forallb legal data = true ->
  exists wb' s',
    xlsx_at (snd (update_excel P file_path data w)) file_path
    = Some (Ok wb') /\
    map title wb' = map title wb /\
    nth_error wb' i = Some s' /\
    rows s' = rows s ++ map row_of data /\
    (rows s = [] -> rows s' = map row_of data) /\
    (data = [] -> wb' = wb).
Proof.
  intros Hload F N Lg.
  destruct (load_ok_inv P _ _ _ Hload) as [S [file [X ->]]].
  rewrite (update_excel_existing P _ data _ _ _ X S F), Lg.
  set (wb := map (reread_sheet P) file) in *.
  exists (update_sheet i (append_rows (map row_of data)) wb),
         (append_rows (map row_of data) s).
  split; [unfold save; simpl; now rewrite str_eqb_refl|].
  split.
  { clear. revert i. induction wb as [|s0 wb IH]; intros i; simpl.
    - reflexivity.
    - destruct i as [|i]; simpl; [reflexivity|now rewrite IH]. }
  split; [now rewrite nth_error_update_sheet, Nat.eqb_refl, N|].
  split; [reflexivity|].
  split.
  - intros E. unfold append_rows. simpl. now rewrite E.
  - intros ->. apply update_sheet_id. intros [t rs].
    unfold append_rows. simpl. now rewrite app_nil_r.
Qed.

Lemma X14_existing_workbook_witness :
  xlsx_at (snd (update_excel posix (lit "out.xlsx")
                  [(VStr (lit "15Mar24"), VStr (lit " Acme Corp"),
                    VStr (lit "500@0.25"), VFloat float_123_45)]
                  (with_book blank_book sample_world)))
          (lit "out.xlsx") =
  Some (Ok [{| title := lit "Dividends";
               rows := [[VStr (lit "15Mar24"); VStr (lit " Acme Corp");
                         VStr (lit "500@0.25"); VFloat float_123_45]] |};
            {| title := lit "Notes"; rows := [[VStr (lit "memo")]] |}]).
Proof.
  destruct (X14_existing_workbook_gets_no_header
              posix (lit "out.xlsx")
              [(VStr (lit "15Mar24"), VStr (lit " Acme Corp"),
                VStr (lit "500@0.25"), VFloat float_123_45)]
              (with_book blank_book sample_world) blank_book 0 _
              eq_refl eq_refl eq_refl eq_refl)
    as [wb' [s' [Hx _]]].
  rewrite Hx. vm_compute in Hx. injection Hx as <-. reflexivity.
Defined.




(** X16.  What the reader prints for a document it does not use.  With
    fewer than three pages: one line that names the path.  With a third
    page that lacks a field: the trace of the page text and nothing more,
    so no message says that the document was skipped.  When the document
    is unreadable: nothing, the world is as it was. *)
Theorem X16_what_a_skipped_document_prints
        (P : platform) (pdf_path : str) (w : world) :
  (forall pages,
      pdf_at w pdf_path = Ok pages -> length pages < 3 ->
      stdout (snd (extract_dividend_details P pdf_path w)) =
      stdout w ++ [[VStr (lit "PDF "); VStr pdf_path;
                    VStr (lit " does not have at least 3 pages.")]]) /\
  (forall pages t,
      pdf_at w pdf_path = Ok pages -> nth_error pages 2 = Some (Ok t) ->
      no_occ (date_at (unicode P) t) \/ no_occ (name_at (unicode P) t) \/
      no_occ (dividend_at (unicode P) t) \/ no_occ (amount_at (unicode P) t) ->
      stdout (snd (extract_dividend_details P pdf_path w)) =
      stdout w ++ [[VStr (lit "Text from page 3 of "); VStr pdf_path;
                    VStr [58%N; 10%N]; VStr t; VStr [10%N]]]) /\
  (forall ex,
      unreadable w pdf_path ex ->
      snd (extract_dividend_details P pdf_path w) = w).
Proof.
  split; [|split].
  - intros pages Hp L. unfold extract_dividend_details, bind, read_pdf.
    rewrite Hp. apply Nat.ltb_lt in L. rewrite L. reflexivity.
  - intros pages t Hp N Hno.
    rewrite (details_page3 P _ _ _ _ Hp N).
    unfold bind, lift, print. rewrite (extract_fields_none P t _ Hno).
    reflexivity.
  - intros ex [Hp|[pages [Hp N]]].
    + now rewrite (details_unreadable P _ _ _ Hp).
    + now rewrite (details_page3 P _ _ _ _ Hp N).
Qed.

Lemma X16_skipped_document_witness :
  stdout (snd (extract_dividend_details posix (lit "dir/short.pdf")
                 idle_world)) =
  [[VStr (lit "PDF "); VStr (lit "dir/short.pdf");
    VStr (lit " does not have at least 3 pages.")]] /\
  stdout (snd (extract_dividend_details posix (lit "dir/cover.pdf")
                 idle_world)) =
  [[VStr (lit "Text from page 3 of "); VStr (lit "dir/cover.pdf");
    VStr [58%N; 10%N]; VStr no_amount_text; VStr [10%N]]] /\
  snd (extract_dividend_details posix (lit "dir/bad.pdf") broken_world)
  = broken_world.
Proof.
  destruct (X16_what_a_skipped_document_prints
              posix (lit "dir/short.pdf") idle_world) as [Hshort _].
  destruct (X16_what_a_skipped_document_prints
              posix (lit "dir/cover.pdf") idle_world) as [_ [Hfield _]].
  destruct (X16_what_a_skipped_document_prints
              posix (lit "dir/bad.pdf") broken_world) as [_ [_ Hbad]].
  split; [|split].
  - apply (Hshort short_pdf); [reflexivity|simpl; lia].
  - apply (Hfield [Ok []; Ok []; Ok no_amount_text] no_amount_text);
      [reflexivity|reflexivity|].
    right; right; right.
    apply (no_spans_sound _ _ _ _ (denotes_amount _ _) (amount_nonempty _ _)).
    vm_compute. reflexivity.
  - apply (Hbad PdfReadError). left. reflexivity.
Defined.
